(** * Verification of the [chaincodeTranscript] smart contract

    A shallow embedding of [chaincodeTranscript/transcript.go]: the record
    types, the canonical hashing of records ([StructToString],
    [StringToMD5], [StructToMD5]), the three insert operations, the
    selector queries over the meta index, the transcript join and
    [InitLedger], followed by the properties proved about them.

    Conventions.
    - A Go [string] is a byte sequence: it is a [string] here (a list of
      8-bit [ascii]).
    - A Go [int] is a [Z]; the contract never does arithmetic on one, it
      only copies, prints and compares them.
    - A Go [float32] is its IEEE-754 binary32 bit pattern, a [Z] in
      [0, 2^32).  The contract never computes with one either; how
      [fmt.Sprintf("%v", f)] prints a [float32] is a parameter of the
      development ([Sprintf_float32]).
    - A Go [(T, error)] result is a [result T]; an [error] is its message,
      built as [fmt.Errorf] builds it.  The text of an error that a
      library returns stands for the library's own text.
    - The Fabric stub is a record of the committed world state and the
      write set of the running transaction; the functions of the Go
      standard library and of the Fabric shim that the contract calls are
      modelled next to their first use.

    What the model takes for granted.
    - The state database answers: [GetState], [GetQueryResult] and
      [PutState] fail only as written below, and the state database is
      one that evaluates rich queries (CouchDB).
    - The chaincode namespace is written by this contract only.
    - [json.Marshal] followed by [json.Unmarshal] gives back the field
      values ([encoding/json] replaces bytes that are not valid UTF-8;
      that is not modelled).
    - The arguments spliced into a selector hold no JSON metacharacter,
      so that the selector is the one the contract means.
    - Output to the standard output ([fmt.Println] in [StructToString])
      and [iterator.Close] are left out. *)

From Stdlib Require Import ZArith NArith List String Ascii Bool Lia Sorted.
From Stdlib Require Import DecimalString.
From Stdlib Require DecimalZ DecimalPos OrderedTypeEx.
Import ListNotations.

Local Open Scope string_scope.
Local Open Scope list_scope.

(* ================================================================== *)
(** * Results and errors *)
(* ================================================================== *)

Inductive result (A : Type) : Type :=
| Ok (a : A)
| Err (msg : string).
Arguments Ok {A} a.
Arguments Err {A} msg.

Definition rbind {A B} (r : result A) (k : A -> result B) : result B :=
  match r with
  | Ok a => k a
  | Err msg => Err msg
  end.

(** [wrap prefix r] is the Go idiom
    [if err != nil { return nil, fmt.Errorf(prefix + "%v", err) }]. *)
Definition wrap {A} (prefix : string) (r : result A) : result A :=
  match r with
  | Ok a => Ok a
  | Err msg => Err (prefix ++ msg)
  end.

Definition is_ok {A} (r : result A) : bool :=
  match r with Ok _ => true | Err _ => false end.

Declare Scope result_scope.
Delimit Scope result_scope with result.
Notation "x <- e ;; k" := (rbind e (fun x => k))
  (at level 61, e at next level, right associativity) : result_scope.

(* ================================================================== *)
(** * Library functions on strings and bytes *)
(* ================================================================== *)

(** [[]byte(value)]: the bytes of a string. *)
Definition bytes_of_string (s : string) : list N :=
  map N_of_ascii (list_ascii_of_string s).

(** [string(bytes)]: the string of a byte sequence. *)
Definition string_of_bytes (bs : list N) : string :=
  string_of_list_ascii (map ascii_of_N bs).

(** [strings.Join(elems, sep)]. *)
Fixpoint strings_Join (elems : list string) (sep : string) : string :=
  match elems with
  | [] => ""
  | [e] => e
  | e :: rest => e ++ sep ++ strings_Join rest sep
  end.

(** [strconv.Itoa(n)], also what [fmt.Sprintf("%v", n)] prints for an
    [int]: decimal digits, with a leading [-] for a negative number. *)
Definition strconv_Itoa (n : Z) : string :=
  NilZero.string_of_int (Z.to_int n).

(** [encoding/hex]: lower-case hexadecimal, two characters a byte. *)
Definition hextable : list ascii :=
  list_ascii_of_string "0123456789abcdef".

Definition hexdigit (n : N) : ascii :=
  nth (N.to_nat n) hextable "0"%char.

Fixpoint hex_EncodeToString (src : list N) : string :=
  match src with
  | [] => ""
  | b :: rest =>
      String (hexdigit (N.shiftr b 4))
        (String (hexdigit (N.land b 15)) (hex_EncodeToString rest))
  end.

(** ** [crypto/md5] (RFC 1321), on 32-bit words held in [N] *)
Module MD5.
Local Open Scope N_scope.

Definition w32 (x : N) : N := N.land x 0xffffffff.

Definition add32 (a b : N) : N := w32 (a + b).

Definition not32 (x : N) : N := N.lxor (w32 x) 0xffffffff.

Definition rotl32 (x c : N) : N :=
  w32 (N.lor (N.shiftl x c) (N.shiftr (w32 x) (32 - c))).

Definition K : list N :=
  [ 0xd76aa478; 0xe8c7b756; 0x242070db; 0xc1bdceee;
    0xf57c0faf; 0x4787c62a; 0xa8304613; 0xfd469501;
    0x698098d8; 0x8b44f7af; 0xffff5bb1; 0x895cd7be;
    0x6b901122; 0xfd987193; 0xa679438e; 0x49b40821;
    0xf61e2562; 0xc040b340; 0x265e5a51; 0xe9b6c7aa;
    0xd62f105d; 0x02441453; 0xd8a1e681; 0xe7d3fbc8;
    0x21e1cde6; 0xc33707d6; 0xf4d50d87; 0x455a14ed;
    0xa9e3e905; 0xfcefa3f8; 0x676f02d9; 0x8d2a4c8a;
    0xfffa3942; 0x8771f681; 0x6d9d6122; 0xfde5380c;
    0xa4beea44; 0x4bdecfa9; 0xf6bb4b60; 0xbebfbc70;
    0x289b7ec6; 0xeaa127fa; 0xd4ef3085; 0x04881d05;
    0xd9d4d039; 0xe6db99e5; 0x1fa27cf8; 0xc4ac5665;
    0xf4292244; 0x432aff97; 0xab9423a7; 0xfc93a039;
    0x655b59c3; 0x8f0ccc92; 0xffeff47d; 0x85845dd1;
    0x6fa87e4f; 0xfe2ce6e0; 0xa3014314; 0x4e0811a1;
    0xf7537e82; 0xbd3af235; 0x2ad7d2bb; 0xeb86d391 ].

Definition S : list N :=
  [ 7; 12; 17; 22; 7; 12; 17; 22; 7; 12; 17; 22; 7; 12; 17; 22;
    5;  9; 14; 20; 5;  9; 14; 20; 5;  9; 14; 20; 5;  9; 14; 20;
    4; 11; 16; 23; 4; 11; 16; 23; 4; 11; 16; 23; 4; 11; 16; 23;
    6; 10; 15; 21; 6; 10; 15; 21; 6; 10; 15; 21; 6; 10; 15; 21 ].

Record state : Type := mkState { sa : N; sb : N; sc : N; sd : N }.

Definition init : state :=
  mkState 0x67452301 0xefcdab89 0x98badcfe 0x10325476.

(** One of the 64 operations of a block: [i] is its index, [X] the
    sixteen little-endian words of the block. *)
Definition step (X : list N) (st : state) (i : nat) : state :=
  let '(mkState a b c d) := st in
  let n := N.of_nat i in
  let '(f, g) :=
    if n <? 16 then (N.lor (N.land b c) (N.land (not32 b) d), n)
    else if n <? 32 then
      (N.lor (N.land d b) (N.land (not32 d) c), (5 * n + 1) mod 16)
    else if n <? 48 then (N.lxor (N.lxor b c) d, (3 * n + 5) mod 16)
    else (N.lxor c (N.lor b (not32 d)), (7 * n) mod 16) in
  let sum := add32 (add32 (add32 a f) (nth i K 0)) (nth (N.to_nat g) X 0) in
  mkState d (add32 b (rotl32 sum (nth i S 0))) b c.

Definition block (st : state) (X : list N) : state :=
  let '(mkState a b c d) := fold_left (step X) (seq 0 64) st in
  mkState (add32 (sa st) a) (add32 (sb st) b)
          (add32 (sc st) c) (add32 (sd st) d).

(** [n] little-endian 32-bit words read from the front of [bs]. *)
Fixpoint words (n : nat) (bs : list N) : list N :=
  match n, bs with
  | Datatypes.S n', b0 :: b1 :: b2 :: b3 :: rest =>
      (b0 + 256 * b1 + 65536 * b2 + 16777216 * b3) :: words n' rest
  | _, _ => []
  end.

(** The [n] low bytes of [x], least significant first. *)
Fixpoint le_bytes (n : nat) (x : N) : list N :=
  match n with
  | O => []
  | Datatypes.S n' => N.land x 255 :: le_bytes n' (N.shiftr x 8)
  end.

(** The message followed by a [0x80] byte, zero bytes up to 56 modulo
    64, and the bit length as a 64-bit little-endian number. *)
Definition pad (msg : list N) : list N :=
  let len := N.of_nat (List.length msg) in
  let zeros := N.to_nat ((55 + 64 - len mod 64) mod 64) in
  msg ++ 0x80 :: repeat 0 zeros ++ le_bytes 8 (N.land (8 * len) 0xffffffffffffffff).

Fixpoint blocks (n : nat) (bs : list N) (st : state) : state :=
  match n with
  | O => st
  | Datatypes.S n' => blocks n' (skipn 64 bs) (block st (words 16 (firstn 64 bs)))
  end.

(** [md5.New(); Write(msg); Sum(nil)]: the sixteen bytes of the digest. *)
Definition Sum (msg : list N) : list N :=
  let p := pad msg in
  let st := blocks (List.length p / 64) p init in
  le_bytes 4 (sa st) ++ le_bytes 4 (sb st) ++ le_bytes 4 (sc st) ++ le_bytes 4 (sd st).

End MD5.

(** [StringToMD5], transcript.go lines 314-318. *)
Definition StringToMD5 (value : string) : string :=
  hex_EncodeToString (MD5.Sum (bytes_of_string value)).

(* ================================================================== *)
(** * Data structures (transcript.go lines 51-115) *)
(* ================================================================== *)

Definition float32 : Type := Z.
Bind Scope Z_scope with float32.

Module StudentInfo.

Record t : Type := mk {
  Faculty : string;
  Department : string;
  StudentID : Z;
  StudentSurname : string;
  StudentName : string;
  NationalID : string;
  RegistrationDate : string;
  RegistrationType : string;
  ProgramType : string;
  Class : Z;
  StudentSemester : Z;
  HashValue : string
}.

Definition set_HashValue (s : t) (h : string) : t :=
  mk (Faculty s) (Department s) (StudentID s) (StudentSurname s)
     (StudentName s) (NationalID s) (RegistrationDate s)
     (RegistrationType s) (ProgramType s) (Class s) (StudentSemester s) h.

(** [var student StudentInfo]: every field at its zero value. *)
Definition zero : t := mk "" "" 0%Z "" "" "" "" "" "" 0%Z 0%Z "".
End StudentInfo.

Module TakenCourse.

Record t : Type := mk {
  StudentID : Z;
  CourseCode : string;
  Grade : string;
  Point : float32;
  TakenSemester : Z;
  HashValue : string
}.

Definition set_HashValue (c : t) (h : string) : t :=
  mk (StudentID c) (CourseCode c) (Grade c) (Point c) (TakenSemester c) h.

Definition zero : t := mk 0%Z "" "" 0%Z 0%Z "".
End TakenCourse.

Module CourseInfo.

Record t : Type := mk {
  CourseCode : string;
  CourseName : string;
  CourseType : string;
  ECTS : Z;
  Credit : Z;
  HashValue : string
}.

Definition set_HashValue (c : t) (h : string) : t :=
  mk (CourseCode c) (CourseName c) (CourseType c) (ECTS c) (Credit c) h.

Definition zero : t := mk "" "" "" 0%Z 0%Z "".
End CourseInfo.

Module MetaInfo.

Record t : Type := mk {
  Owner : string;
  StudentID : string;
  Relation : string;
  HashValue : string
}.

Definition set_HashValue (m : t) (h : string) : t :=
  mk (Owner m) (StudentID m) (Relation m) h.

Definition zero : t := mk "" "" "" "".
End MetaInfo.

Module CombinedCourseRecords.

Record t : Type := mk {
  CourseCode : string;
  CourseName : string;
  CourseType : string;
  ECTS : Z;
  Credit : Z;
  Grade : string;
  Point : float32;
  TakenSemester : Z
}.

Definition zero : t := mk "" "" "" 0%Z 0%Z "" 0%Z 0%Z.
End CombinedCourseRecords.

Module StudentTranscript.

Record t : Type := mk {
  InfoStudent : StudentInfo.t;
  Courses : list CombinedCourseRecords.t
}.
End StudentTranscript.

(* ================================================================== *)
(** * Canonical hashing (transcript.go lines 288-318) *)
(* ================================================================== *)

(** The values that [reflect] finds in the fields of the three record
    kinds. *)
Inductive Value : Type :=
| VString (s : string)
| VInt (n : Z)
| VFloat32 (f : float32).

(** The [incomingStruct interface{}] argument of [StructToMD5] and
    [StructToString]: the contract passes a [StudentInfo], a
    [TakenCourse] or a [CourseInfo]. *)
Inductive Struct : Type :=
| AStudentInfo (s : StudentInfo.t)
| ATakenCourse (c : TakenCourse.t)
| ACourseInfo (c : CourseInfo.t).

(** [values.Type().Field(i).Name] and [values.Field(i)] for
    [i = 0 .. NumField()-1], in declaration order. *)
Definition reflect_fields (incomingStruct : Struct) : list (string * Value) :=
  match incomingStruct with
  | AStudentInfo s =>
      [ ("Faculty", VString (StudentInfo.Faculty s));
        ("Department", VString (StudentInfo.Department s));
        ("StudentID", VInt (StudentInfo.StudentID s));
        ("StudentSurname", VString (StudentInfo.StudentSurname s));
        ("StudentName", VString (StudentInfo.StudentName s));
        ("NationalID", VString (StudentInfo.NationalID s));
        ("RegistrationDate", VString (StudentInfo.RegistrationDate s));
        ("RegistrationType", VString (StudentInfo.RegistrationType s));
        ("ProgramType", VString (StudentInfo.ProgramType s));
        ("Class", VInt (StudentInfo.Class s));
        ("StudentSemester", VInt (StudentInfo.StudentSemester s));
        ("HashValue", VString (StudentInfo.HashValue s)) ]
  | ATakenCourse c =>
      [ ("StudentID", VInt (TakenCourse.StudentID c));
        ("CourseCode", VString (TakenCourse.CourseCode c));
        ("Grade", VString (TakenCourse.Grade c));
        ("Point", VFloat32 (TakenCourse.Point c));
        ("TakenSemester", VInt (TakenCourse.TakenSemester c));
        ("HashValue", VString (TakenCourse.HashValue c)) ]
  | ACourseInfo c =>
      [ ("CourseCode", VString (CourseInfo.CourseCode c));
        ("CourseName", VString (CourseInfo.CourseName c));
        ("CourseType", VString (CourseInfo.CourseType c));
        ("ECTS", VInt (CourseInfo.ECTS c));
        ("Credit", VInt (CourseInfo.Credit c));
        ("HashValue", VString (CourseInfo.HashValue c)) ]
  end.

(** The record with its digest field replaced. *)
Definition struct_set_HashValue (r : Struct) (h : string) : Struct :=
  match r with
  | AStudentInfo s => AStudentInfo (StudentInfo.set_HashValue s h)
  | ATakenCourse c => ATakenCourse (TakenCourse.set_HashValue c h)
  | ACourseInfo c => ACourseInfo (CourseInfo.set_HashValue c h)
  end.

Definition struct_HashValue (r : Struct) : string :=
  match r with
  | AStudentInfo s => StudentInfo.HashValue s
  | ATakenCourse c => TakenCourse.HashValue c
  | ACourseInfo c => CourseInfo.HashValue c
  end.

Section Hashing.

(** What [fmt.Sprintf("%v", f)] prints for a [float32] (the shortest
    decimal that reads back as [f], in [%g] style). *)
Variable Sprintf_float32 : float32 -> string.

(** [fmt.Sprintf("%v", value)] for [value] a [reflect.Value] holding a
    field: [fmt] prints the value that the [reflect.Value] holds. *)
Definition Sprintf_v (value : Value) : string :=
  match value with
  | VString s => s
  | VInt n => strconv_Itoa n
  | VFloat32 f => Sprintf_float32 f
  end.

(** [StructToString], lines 294-312.  [mySlice] starts as
    [numberOfFields] empty strings; the loop stores the text of every
    field whose name is not ["HashCode"]; the joined string loses its
    last byte.  (Go panics on [result[:len(result)-1]] for an empty
    [result]; [strings_Join_fields_nonempty] below shows that the
    joined string of these three record kinds is never empty.) *)
Definition StructToString (incomingStruct : Struct) : string :=
  let values := reflect_fields incomingStruct in
  let mySlice :=
    map (fun field : string * Value =>
           let (fieldType, value) := field in
           if negb (String.eqb fieldType "HashCode")
           then Sprintf_v value
           else "")
        values in
  let result := strings_Join mySlice "," in
  substring 0 (String.length result - 1) result.

(** [StructToMD5], lines 288-292. *)
Definition StructToMD5 (incomingStruct : Struct) : string :=
  let generatedString := StructToString incomingStruct in
  StringToMD5 generatedString.

End Hashing.

(* ================================================================== *)
(** * [encoding/json] on the four stored record kinds *)
(* ================================================================== *)

(** A JSON object is a list of members; a member value of these
    records is a string or a number.  A number remembers the Go value
    it was printed from: no [int] field shares its member name with a
    [float32] field. *)
Inductive JVal : Type :=
| JString (s : string)
| JInt (n : Z)
| JFloat (f : float32).

Definition JObject : Type := list (string * JVal).

Fixpoint json_get (key : string) (o : JObject) : option JVal :=
  match o with
  | [] => None
  | (k, v) :: rest => if String.eqb key k then Some v else json_get key rest
  end.

(** The stored values: the chaincode namespace is written by this
    contract only, so every value is the JSON text that [json.Marshal]
    produced for one of the four structs.  A [Doc] stands for that
    text; [json_fields] gives its members under their [json:"..."]
    tags. *)
Inductive Doc : Type :=
| DStudentInfo (s : StudentInfo.t)
| DTakenCourse (c : TakenCourse.t)
| DCourseInfo (c : CourseInfo.t)
| DMetaInfo (m : MetaInfo.t).

Definition json_fields (d : Doc) : JObject :=
  match d with
  | DStudentInfo s =>
      [ ("faculty", JString (StudentInfo.Faculty s));
        ("department", JString (StudentInfo.Department s));
        ("student_id", JInt (StudentInfo.StudentID s));
        ("student_surname", JString (StudentInfo.StudentSurname s));
        ("student_name", JString (StudentInfo.StudentName s));
        ("national_id", JString (StudentInfo.NationalID s));
        ("registration_date", JString (StudentInfo.RegistrationDate s));
        ("registration_type", JString (StudentInfo.RegistrationType s));
        ("program_type", JString (StudentInfo.ProgramType s));
        ("class", JInt (StudentInfo.Class s));
        ("student_semester", JInt (StudentInfo.StudentSemester s));
        ("hash_value", JString (StudentInfo.HashValue s)) ]
  | DTakenCourse c =>
      [ ("student_id", JInt (TakenCourse.StudentID c));
        ("course_code", JString (TakenCourse.CourseCode c));
        ("grade", JString (TakenCourse.Grade c));
        ("point", JFloat (TakenCourse.Point c));
        ("taken_semester", JInt (TakenCourse.TakenSemester c));
        ("hash_value", JString (TakenCourse.HashValue c)) ]
  | DCourseInfo c =>
      [ ("course_code", JString (CourseInfo.CourseCode c));
        ("course_name", JString (CourseInfo.CourseName c));
        ("course_type", JString (CourseInfo.CourseType c));
        ("ects", JInt (CourseInfo.ECTS c));
        ("credit", JInt (CourseInfo.Credit c));
        ("hash_value", JString (CourseInfo.HashValue c)) ]
  | DMetaInfo m =>
      [ ("owner", JString (MetaInfo.Owner m));
        ("student_id", JString (MetaInfo.StudentID m));
        ("relation", JString (MetaInfo.Relation m));
        ("hash_value", JString (MetaInfo.HashValue m)) ]
  end.

(** The exponent bits of a [float32] are all ones for NaN and the
    infinities, which [json.Marshal] refuses. *)
Definition float32_finite (f : float32) : bool :=
  negb (Z.land (Z.shiftr f 23) 255 =? 255)%Z.

Definition float32_special_name (f : float32) : string :=
  if negb (Z.land f 8388607 =? 0)%Z then "NaN"
  else if Z.testbit f 31 then "-Inf" else "+Inf".

(** [json.Marshal(v)]: fails on a [float32] that is not finite. *)
Definition json_Marshal (v : Doc) : result Doc :=
  match v with
  | DTakenCourse c =>
      if float32_finite (TakenCourse.Point c) then Ok v
      else Err ("json: unsupported value: "
                ++ float32_special_name (TakenCourse.Point c))
  | _ => Ok v
  end.

Definition json_kind (v : JVal) : string :=
  match v with
  | JString _ => "string"
  | JInt _ | JFloat _ => "number"
  end.

Definition json_type_error (v : JVal) (struct field type : string) : string :=
  "json: cannot unmarshal " ++ json_kind v ++ " into Go struct field "
  ++ struct ++ "." ++ field ++ " of type " ++ type.

(** Decoding of one struct field: a member that is absent leaves the
    field at its zero value; a member of the wrong JSON type is an
    [UnmarshalTypeError]. *)
Definition json_string_field (o : JObject) (struct key : string) : result string :=
  match json_get key o with
  | None => Ok ""
  | Some (JString s) => Ok s
  | Some v => Err (json_type_error v struct key "string")
  end.

Definition json_int_field (o : JObject) (struct key : string) : result Z :=
  match json_get key o with
  | None => Ok 0%Z
  | Some (JInt n) => Ok n
  | Some v => Err (json_type_error v struct key "int")
  end.

Definition json_float32_field (o : JObject) (struct key : string) : result float32 :=
  match json_get key o with
  | None => Ok 0%Z
  | Some (JFloat f) => Ok f
  | Some v => Err (json_type_error v struct key "float32")
  end.

Local Open Scope result_scope.

Definition json_Unmarshal_StudentInfo (data : Doc) : result StudentInfo.t :=
  let o := json_fields data in
  faculty <- json_string_field o "StudentInfo" "faculty";;
  department <- json_string_field o "StudentInfo" "department";;
  student_id <- json_int_field o "StudentInfo" "student_id";;
  student_surname <- json_string_field o "StudentInfo" "student_surname";;
  student_name <- json_string_field o "StudentInfo" "student_name";;
  national_id <- json_string_field o "StudentInfo" "national_id";;
  registration_date <- json_string_field o "StudentInfo" "registration_date";;
  registration_type <- json_string_field o "StudentInfo" "registration_type";;
  program_type <- json_string_field o "StudentInfo" "program_type";;
  class <- json_int_field o "StudentInfo" "class";;
  student_semester <- json_int_field o "StudentInfo" "student_semester";;
  hash_value <- json_string_field o "StudentInfo" "hash_value";;
  Ok (StudentInfo.mk faculty department student_id student_surname
        student_name national_id registration_date registration_type
        program_type class student_semester hash_value).

Definition json_Unmarshal_TakenCourse (data : Doc) : result TakenCourse.t :=
  let o := json_fields data in
  student_id <- json_int_field o "TakenCourse" "student_id";;
  course_code <- json_string_field o "TakenCourse" "course_code";;
  grade <- json_string_field o "TakenCourse" "grade";;
  point <- json_float32_field o "TakenCourse" "point";;
  taken_semester <- json_int_field o "TakenCourse" "taken_semester";;
  hash_value <- json_string_field o "TakenCourse" "hash_value";;
  Ok (TakenCourse.mk student_id course_code grade point taken_semester hash_value).

Definition json_Unmarshal_CourseInfo (data : Doc) : result CourseInfo.t :=
  let o := json_fields data in
  course_code <- json_string_field o "CourseInfo" "course_code";;
  course_name <- json_string_field o "CourseInfo" "course_name";;
  course_type <- json_string_field o "CourseInfo" "course_type";;
  ects <- json_int_field o "CourseInfo" "ects";;
  credit <- json_int_field o "CourseInfo" "credit";;
  hash_value <- json_string_field o "CourseInfo" "hash_value";;
  Ok (CourseInfo.mk course_code course_name course_type ects credit hash_value).

Definition json_Unmarshal_MetaInfo (data : Doc) : result MetaInfo.t :=
  let o := json_fields data in
  owner <- json_string_field o "MetaInfo" "owner";;
  student_id <- json_string_field o "MetaInfo" "student_id";;
  relation <- json_string_field o "MetaInfo" "relation";;
  hash_value <- json_string_field o "MetaInfo" "hash_value";;
  Ok (MetaInfo.mk owner student_id relation hash_value).

(* ================================================================== *)
(** * The Fabric stub *)
(* ================================================================== *)

(** The committed world state: the key-value pairs of the chaincode
    namespace in ascending byte order of their keys, the order in which
    the state database lists them. *)
Definition WorldState : Type := list (string * Doc).

Fixpoint ws_get (key : string) (w : WorldState) : option Doc :=
  match w with
  | [] => None
  | (k, v) :: rest => if String.eqb key k then Some v else ws_get key rest
  end.

Fixpoint ws_put (key : string) (value : Doc) (w : WorldState) : WorldState :=
  match w with
  | [] => [(key, value)]
  | (k, v) :: rest =>
      match String.compare key k with
      | Eq => (key, value) :: rest
      | Lt => (key, value) :: w
      | Gt => (k, v) :: ws_put key value rest
      end
  end.

(** A transaction reads the committed state and collects its writes in
    a write set; the host applies the write set, in program order, when
    the transaction succeeds, and drops it when the transaction returns
    an error.  Reads never see the writes of their own transaction. *)
Record Stub : Type := mkStub {
  world : WorldState;
  writes : list (string * Doc)
}.

Definition new_transaction (w : WorldState) : Stub := mkStub w [].

Definition commit (ctx : Stub) : WorldState :=
  fold_left (fun w kv => ws_put (fst kv) (snd kv) w) (writes ctx) (world ctx).

(** [ctx.GetStub().GetState(key)]: [None] is the [nil] value of a key
    that is not in the state. *)
Definition GetState (ctx : Stub) (key : string) : result (option Doc) :=
  Ok (ws_get key (world ctx)).

(** [ctx.GetStub().PutState(key, value)]. *)
Definition PutState (ctx : Stub) (key : string) (value : Doc) : result unit * Stub :=
  if String.eqb key "" then (Err "key must not be an empty string", ctx)
  else (Ok tt, mkStub (world ctx) (writes ctx ++ [(key, value)])).

(** A rich query [{"selector":{f1:"v1", ...}}]: the contract builds the
    text with [fmt.Sprintf]; the model keeps the list of (member,
    string) pairs that the text denotes when the spliced arguments hold
    no JSON metacharacter.  A document is selected when each named
    member is a string equal to the given one. *)
Definition Selector : Type := list (string * string).

Definition selector_matches (sel : Selector) (d : Doc) : bool :=
  forallb (fun fv : string * string =>
             match json_get (fst fv) (json_fields d) with
             | Some (JString s) => String.eqb s (snd fv)
             | _ => false
             end) sel.

(** [ctx.GetStub().GetQueryResult(queryString)]: the rows an iterator
    yields, in order; [HasNext] on a fresh iterator is "the list is not
    empty". *)
Definition GetQueryResult (ctx : Stub) (sel : Selector) : result (list (string * Doc)) :=
  Ok (filter (fun kv => selector_matches sel (snd kv)) (world ctx)).

Definition HasNext {A} (rows : list A) : bool :=
  match rows with [] => false | _ :: _ => true end.

(** ** Composite keys *)
(** [utf8.ValidString] on the bytes of a string. *)
Definition utf8_cont (b : N) : bool := ((0x80 <=? b) && (b <=? 0xBF))%N.

Fixpoint utf8_Valid (bs : list N) : bool :=
  match bs with
  | [] => true
  | b0 :: r0 =>
      if (b0 <? 0x80)%N then utf8_Valid r0
      else
        match r0 with
        | [] => false
        | b1 :: r1 =>
            if ((0xC2 <=? b0) && (b0 <=? 0xDF))%N
            then utf8_cont b1 && utf8_Valid r1
            else
              match r1 with
              | [] => false
              | b2 :: r2 =>
                  if ((0xE0 <=? b0) && (b0 <=? 0xEF))%N
                  then
                    (if (b0 =? 0xE0)%N then ((0xA0 <=? b1) && (b1 <=? 0xBF))%N
                     else if (b0 =? 0xED)%N then ((0x80 <=? b1) && (b1 <=? 0x9F))%N
                     else utf8_cont b1)
                    && utf8_cont b2 && utf8_Valid r2
                  else
                    match r2 with
                    | [] => false
                    | b3 :: r3 =>
                        ((0xF0 <=? b0) && (b0 <=? 0xF4))%N
                        && (if (b0 =? 0xF0)%N then ((0x90 <=? b1) && (b1 <=? 0xBF))%N
                            else if (b0 =? 0xF4)%N then ((0x80 <=? b1) && (b1 <=? 0x8F))%N
                            else utf8_cont b1)
                        && utf8_cont b2 && utf8_cont b3 && utf8_Valid r3
                    end
              end
        end
  end.

(** Whether valid UTF-8 text holds the rune U+0000 (the byte [00]) or
    the rune U+10FFFF (the bytes [F4 8F BF BF]). *)
Fixpoint has_min_or_max_rune (bs : list N) : bool :=
  match bs with
  | [] => false
  | b0 :: r0 =>
      (b0 =? 0)%N
      || match r0 with
         | b1 :: b2 :: b3 :: _ =>
             (b0 =? 0xF4)%N && (b1 =? 0x8F)%N && (b2 =? 0xBF)%N && (b3 =? 0xBF)%N
         | _ => false
         end
      || has_min_or_max_rune r0
  end.

(** [validateCompositeKeyAttribute] of the shim. *)
Definition validateCompositeKeyAttribute (str : string) : result unit :=
  if negb (utf8_Valid (bytes_of_string str))
  then Err "not a valid utf8 string"
  else if has_min_or_max_rune (bytes_of_string str)
  then Err "input contains a unicode rune that is not allowed in the input attribute of a composite key"
  else Ok tt.

Definition minUnicodeRuneValue : string := String (ascii_of_N 0) "".

Definition compositeKeyNamespace : string := String (ascii_of_N 0) "".

Fixpoint CreateCompositeKey_attributes (ck : string) (attributes : list string) : result string :=
  match attributes with
  | [] => Ok ck
  | att :: rest =>
      _ <- validateCompositeKeyAttribute att;;
      CreateCompositeKey_attributes (ck ++ att ++ minUnicodeRuneValue) rest
  end.

(** [ctx.GetStub().CreateCompositeKey(objectType, attributes)]. *)
Definition CreateCompositeKey (objectType : string) (attributes : list string) : result string :=
  _ <- validateCompositeKeyAttribute objectType;;
  CreateCompositeKey_attributes
    (compositeKeyNamespace ++ objectType ++ minUnicodeRuneValue) attributes.

(** ** Transactions that write *)
Definition Tx (A : Type) : Type := Stub -> result A * Stub.

Definition tx_ret {A} (a : A) : Tx A := fun ctx => (Ok a, ctx).

Definition tx_fail {A} (msg : string) : Tx A := fun ctx => (Err msg, ctx).

Definition tx_bind {A B} (m : Tx A) (k : A -> Tx B) : Tx B :=
  fun ctx =>
    match m ctx with
    | (Ok a, ctx') => k a ctx'
    | (Err msg, ctx') => (Err msg, ctx')
    end.

(** A step that only reads the stub, or does not touch it at all. *)
Definition tx_read {A} (r : Stub -> result A) : Tx A := fun ctx => (r ctx, ctx).

Definition tx_lift {A} (r : result A) : Tx A := fun ctx => (r, ctx).

Definition tx_wrap {A} (prefix : string) (m : Tx A) : Tx A :=
  fun ctx => let (r, ctx') := m ctx in (wrap prefix r, ctx').

Declare Scope tx_scope.
Delimit Scope tx_scope with tx.
Notation "x <- e ;; k" := (tx_bind e (fun x => k))
  (at level 61, e at next level, right associativity) : tx_scope.

(** What the host does with an invocation: run it on a fresh write set
    over the committed state; commit the write set if it returns no
    error, drop it otherwise. *)
Definition invoke {A} (op : Tx A) (w : WorldState) : result A * WorldState :=
  let (r, ctx) := op (new_transaction w) in
  match r with
  | Ok _ => (r, commit ctx)
  | Err _ => (r, w)
  end.

(* ================================================================== *)
(** * The contract (transcript.go lines 124-1019) *)
(* ================================================================== *)

Definition no_record_found : string :=
  "no record were found relevant to the given arguments on worldstate db".

(** ** Existence check, lines 320-336 *)
(** Go returns [(true, err)] when the query fails; every caller tests
    [err] first, so the pair is the [Err] of a [result]. *)
Definition IsRecordExists (ctx : Stub) (Owner StudentID HashCode : string) : result bool :=
  let queryString :=
    [("owner", Owner); ("student_id", StudentID); ("hash_value", HashCode)] in
  resultsIterator <- wrap "failed to read from worldstate db : "
                       (GetQueryResult ctx queryString);;
  if HasNext resultsIterator then Ok true else Ok false.

(** ** Dereferencing a digest, lines 593-610, 676-693, 761-778 *)
Definition Get_StudentInfo_ByHashValue (ctx : Stub) (hashValue : string) : result StudentInfo.t :=
  jsonData <- wrap "failed to read from worldstate db : " (GetState ctx hashValue);;
  match jsonData with
  | None => Err ("there is not a record with the given hash value: " ++ hashValue)
  | Some data =>
      wrap "failed to fetch json data to struct : " (json_Unmarshal_StudentInfo data)
  end.

Definition Get_CourseInfo_ByHashValue (ctx : Stub) (hashValue : string) : result CourseInfo.t :=
  jsonData <- wrap "failed to read from worldstate db : " (GetState ctx hashValue);;
  match jsonData with
  | None => Err ("there is not a record with the given hash value: " ++ hashValue)
  | Some data =>
      wrap "failed to fetch json data to struct : " (json_Unmarshal_CourseInfo data)
  end.

Definition Get_TakenCourse_ByHashValue (ctx : Stub) (hashValue : string) : result TakenCourse.t :=
  jsonData <- wrap "failed to read from worldstate db : " (GetState ctx hashValue);;
  match jsonData with
  | None => Err ("there is not a record with the given hash value: " ++ hashValue)
  | Some data =>
      wrap "failed to fetch json data to struct : " (json_Unmarshal_TakenCourse data)
  end.

(** ** Digests of a student's records, lines 557-591, 640-674, 725-759 *)
(** The [for iterator.HasNext()] loop: each row is decoded into a
    [MetaInfo] and its digest appended. *)
Fixpoint collect_HashValues (rows : list (string * Doc)) (hashValues : list string)
  : result (list string) :=
  match rows with
  | [] => Ok hashValues
  | queryRow :: rest =>
      record <- wrap "failed to fetch json data to struct : "
                  (json_Unmarshal_MetaInfo (snd queryRow));;
      collect_HashValues rest (hashValues ++ [MetaInfo.HashValue record])
  end.

(** The three functions differ in the relation name only. *)
Definition Get_Student_HashValues (relation : string) (ctx : Stub) (hei studentID : string)
  : result (list string) :=
  let queryString :=
    [("owner", hei); ("relation", relation); ("student_id", studentID)] in
  iterator <- wrap "failed to read from worldstate db : "
                (GetQueryResult ctx queryString);;
  if negb (HasNext iterator) then Err no_record_found
  else collect_HashValues iterator [].

Definition Get_Student_StudentInfo_HashValues : Stub -> string -> string -> result (list string) :=
  Get_Student_HashValues "StudentInfo".

Definition Get_Student_CourseInfos_HashValues : Stub -> string -> string -> result (list string) :=
  Get_Student_HashValues "CourseInfo".

Definition Get_Student_TakenCourses_HashValues : Stub -> string -> string -> result (list string) :=
  Get_Student_HashValues "TakenCourse".

(** ** A student's records, lines 535-555, 618-638, 701-723 *)
(** The loop of [Get_Student_StudentInfo]: [recordStudentInfo] starts
    as [nil] and is overwritten at every iteration. *)
Fixpoint Get_Student_StudentInfo_loop (ctx : Stub) (hashValueofStudentInfo : list string)
    (recordStudentInfo : option StudentInfo.t) : result (option StudentInfo.t) :=
  match hashValueofStudentInfo with
  | [] => Ok recordStudentInfo
  | hashValue :: rest =>
      infoStudent <- wrap "error during fetch taken course record by hash value: "
                       (Get_StudentInfo_ByHashValue ctx hashValue);;
      Get_Student_StudentInfo_loop ctx rest (Some infoStudent)
  end.

Definition Get_Student_StudentInfo (ctx : Stub) (hei studentID : string)
  : result (option StudentInfo.t) :=
  hashValueofStudentInfo <- wrap "failed to read from worldstate db : "
                              (Get_Student_StudentInfo_HashValues ctx hei studentID);;
  Get_Student_StudentInfo_loop ctx hashValueofStudentInfo None.

Fixpoint Get_Student_CourseInfos_loop (ctx : Stub) (hashValuesofCourseInfos : list string)
    (recordsCourseInfos : list CourseInfo.t) : result (list CourseInfo.t) :=
  match hashValuesofCourseInfos with
  | [] => Ok recordsCourseInfos
  | hashValue :: rest =>
      course <- wrap "error during fetch taken course record by hash value: "
                  (Get_CourseInfo_ByHashValue ctx hashValue);;
      Get_Student_CourseInfos_loop ctx rest (recordsCourseInfos ++ [course])
  end.

Definition Get_Student_CourseInfos (ctx : Stub) (hei studentID : string)
  : result (list CourseInfo.t) :=
  hashValuesofCourseInfos <- wrap "failed to read from worldstate db : "
                               (Get_Student_CourseInfos_HashValues ctx hei studentID);;
  Get_Student_CourseInfos_loop ctx hashValuesofCourseInfos [].

Fixpoint Get_Student_TakenCourses_loop (ctx : Stub) (hashValuesofTakenCourses : list string)
    (recordsTakenCourses : list TakenCourse.t) : result (list TakenCourse.t) :=
  match hashValuesofTakenCourses with
  | [] => Ok recordsTakenCourses
  | hashValue :: rest =>
      course <- wrap "error during fetch taken course record by hash value: "
                  (Get_TakenCourse_ByHashValue ctx hashValue);;
      Get_Student_TakenCourses_loop ctx rest (recordsTakenCourses ++ [course])
  end.

Definition Get_Student_TakenCourses (ctx : Stub) (hei studentID : string)
  : result (list TakenCourse.t) :=
  hashValuesofTakenCourses <- wrap "failed to read from worldstate db : "
                                (Get_Student_TakenCourses_HashValues ctx hei studentID);;
  Get_Student_TakenCourses_loop ctx hashValuesofTakenCourses [].

(** ** Meta entries of an institution, lines 806-839, 867-900, 928-961 *)
Fixpoint collect_MetaInfos (rows : list (string * Doc)) (records : list MetaInfo.t)
  : result (list MetaInfo.t) :=
  match rows with
  | [] => Ok records
  | queryRow :: rest =>
      record <- wrap "failed to fetch json data to struct : "
                  (json_Unmarshal_MetaInfo (snd queryRow));;
      collect_MetaInfos rest (records ++ [record])
  end.

Definition Get_HEI_MetaInfos (relation : string) (ctx : Stub) (hei : string)
  : result (list MetaInfo.t) :=
  let queryString := [("owner", hei); ("relation", relation)] in
  iterator <- wrap "failed to read from worldstate db : "
                (GetQueryResult ctx queryString);;
  if negb (HasNext iterator) then Err no_record_found
  else collect_MetaInfos iterator [].

Definition Get_HEI_MetaInfos_TakenCourses : Stub -> string -> result (list MetaInfo.t) :=
  Get_HEI_MetaInfos "TakenCourse".



(** ** Records of an institution, lines 786-804, 847-865, 908-926 *)
Fixpoint Get_HEI_TakenCourses_loop (ctx : Stub) (records : list MetaInfo.t)
    (recordsStudentInfo : list TakenCourse.t) : result (list TakenCourse.t) :=
  match records with
  | [] => Ok recordsStudentInfo
  | record :: rest =>
      recordStudentInfo <- wrap "" (Get_TakenCourse_ByHashValue ctx (MetaInfo.HashValue record));;
      Get_HEI_TakenCourses_loop ctx rest (recordsStudentInfo ++ [recordStudentInfo])
  end.

Definition Get_HEI_TakenCourses (ctx : Stub) (hei : string) : result (list TakenCourse.t) :=
  records <- wrap "failed to read from worldstate db : "
               (Get_HEI_MetaInfos_TakenCourses ctx hei);;
  Get_HEI_TakenCourses_loop ctx records [].





(** ** The transcript, lines 969-1019 *)
(** The inner loop over [infoCourses]: [newCourseCombined] is one
    variable, updated at every match and appended by value. *)
Definition combine_course (newCourseCombined : CombinedCourseRecords.t) (info : CourseInfo.t)
  : CombinedCourseRecords.t :=
  CombinedCourseRecords.mk
    (CombinedCourseRecords.CourseCode newCourseCombined)
    (CourseInfo.CourseName info)
    (CourseInfo.CourseType info)
    (CourseInfo.ECTS info)
    (CourseInfo.Credit info)
    (CombinedCourseRecords.Grade newCourseCombined)
    (CombinedCourseRecords.Point newCourseCombined)
    (CombinedCourseRecords.TakenSemester newCourseCombined).

Fixpoint transcript_inner (course : TakenCourse.t) (infoCourses : list CourseInfo.t)
    (newCourseCombined : CombinedCourseRecords.t)
    (coursesTakenbyStudent : list CombinedCourseRecords.t)
  : list CombinedCourseRecords.t :=
  match infoCourses with
  | [] => coursesTakenbyStudent
  | info :: rest =>
      if String.eqb (TakenCourse.CourseCode course) (CourseInfo.CourseCode info)
      then
        let newCourseCombined := combine_course newCourseCombined info in
        transcript_inner course rest newCourseCombined
          (coursesTakenbyStudent ++ [newCourseCombined])
      else transcript_inner course rest newCourseCombined coursesTakenbyStudent
  end.

Fixpoint transcript_outer (coursesTaken : list TakenCourse.t) (infoCourses : list CourseInfo.t)
    (coursesTakenbyStudent : list CombinedCourseRecords.t)
  : list CombinedCourseRecords.t :=
  match coursesTaken with
  | [] => coursesTakenbyStudent
  | course :: rest =>
      let newCourseCombined :=
        CombinedCourseRecords.mk
          (TakenCourse.CourseCode course) "" "" 0%Z 0%Z
          (TakenCourse.Grade course) (TakenCourse.Point course)
          (TakenCourse.TakenSemester course) in
      transcript_outer rest infoCourses
        (transcript_inner course infoCourses newCourseCombined coursesTakenbyStudent)
  end.

(** [*infoStudent] on a [nil] pointer is a run-time panic, which ends
    the invocation with a failure. *)
Definition nil_dereference : string :=
  "panic: runtime error: invalid memory address or nil pointer dereference".

Definition GetStudentTranscript (ctx : Stub) (hei studentID : string)
  : result StudentTranscript.t :=
  infoStudent <- wrap "failed to construct the transcript from the world state db: "
                   (Get_Student_StudentInfo ctx hei studentID);;
  infoCourses <- wrap "failed to construct the transcript from the world state db: "
                   (Get_Student_CourseInfos ctx hei studentID);;
  coursesTaken <- wrap "failed to construct the transcript from the world state db: "
                    (Get_Student_TakenCourses ctx hei studentID);;
  let coursesTakenbyStudent := transcript_outer coursesTaken infoCourses [] in
  match infoStudent with
  | None => Err nil_dereference
  | Some info => Ok (StudentTranscript.mk info coursesTakenbyStudent)
  end.

(** ** Inserting records, lines 344-527 *)
Definition doc_of_struct (r : Struct) : Doc :=
  match r with
  | AStudentInfo s => DStudentInfo s
  | ATakenCourse c => DTakenCourse c
  | ACourseInfo c => DCourseInfo c
  end.

Definition tx_PutState (key : string) (value : Doc) : Tx unit :=
  fun ctx => PutState ctx key value.

Definition record_exists : string := "the record you sent exists: <nil>".

Section Writers.

Variable Sprintf_float32 : float32 -> string.

(** The body that the three insert functions share, from the
    computation of the digest on: [record] is the struct filled from
    the arguments, its [HashValue] still empty, and [relation] the
    name stored in the meta entry.  ([fmt.Errorf("...: %v", err)]
    with a [nil] [err] prints [<nil>].) *)
Definition InsertNewRecord (record : Struct) (relation : string)
    (owner : string) (studentId : Z) : Tx bool :=
  let generatedHashValue := StructToMD5 Sprintf_float32 record in
  let record := struct_set_HashValue record generatedHashValue in
  (IsExist <- tx_wrap ""
                (tx_read (fun ctx =>
                   IsRecordExists ctx owner (strconv_Itoa studentId) generatedHashValue));;
   if (IsExist : bool) then tx_fail record_exists
   else
     jsonRecord <- tx_wrap "failed to convert struct to json object: "
                     (tx_lift (json_Marshal (doc_of_struct record)));;
     _ <- tx_wrap "failed to put student info to world state. "
            (tx_PutState (struct_HashValue record) jsonRecord);;
     let meta :=
       MetaInfo.mk owner (strconv_Itoa studentId) relation generatedHashValue in
     compositeKey <- tx_wrap "failed to create composite key: "
                       (tx_lift (CreateCompositeKey "heiID"
                          [MetaInfo.Owner meta; MetaInfo.StudentID meta;
                           MetaInfo.HashValue meta]));;
     jsonMeta <- tx_wrap "failed to convert struct to json object: "
                   (tx_lift (json_Marshal (DMetaInfo meta)));;
     _ <- tx_wrap "failed to put meta student info to world state. "
            (tx_PutState compositeKey jsonMeta);;
     tx_ret true)%tx.

Definition InsertNewRecordStudentInfo (owner faculty department : string)
    (studentId : Z)
    (surname name nationalid registrationdate registrationtype programtype : string)
    (class semester : Z) : Tx bool :=
  let student :=
    StudentInfo.mk faculty department studentId surname name nationalid
      registrationdate registrationtype programtype class semester "" in
  InsertNewRecord (AStudentInfo student) "StudentInfo" owner studentId.

Definition InsertNewRecordTakenCourse (owner : string) (studentId : Z)
    (courseCode grade : string) (point : float32) (takenSemester : Z) : Tx bool :=
  let course :=
    TakenCourse.mk studentId courseCode grade point takenSemester "" in
  InsertNewRecord (ATakenCourse course) "TakenCourse" owner studentId.

Definition InsertNewRecordCourseInfo (owner : string) (studentnumber : Z)
    (courseCode courseName courseType : string) (ects credit : Z) : Tx bool :=
  let InfoCourse :=
    CourseInfo.mk courseCode courseName courseType ects credit "" in
  InsertNewRecord (ACourseInfo InfoCourse) "CourseInfo" owner studentnumber.

(** ** [InitLedger], lines 124-286 *)

(** One of the three [for index := range ...] loops: the record and
    the meta entry at the same index get the digest, and both are
    put, with no existence check.  The loops differ in the record
    type and in the two [PutState] messages. *)
Fixpoint InitLedger_loop (put_error put_meta_error : string)
    (records : list (Struct * MetaInfo.t)) : Tx unit :=
  match records with
  | [] => tx_ret tt
  | (record, meta) :: rest =>
      let generatedHashValue := StructToMD5 Sprintf_float32 record in
      let record := struct_set_HashValue record generatedHashValue in
      let meta := MetaInfo.set_HashValue meta generatedHashValue in
      (infoJSON <- tx_wrap "failed to convert struct to json object: "
                     (tx_lift (json_Marshal (doc_of_struct record)));;
       _ <- tx_wrap put_error (tx_PutState (struct_HashValue record) infoJSON);;
       compositeKey <- tx_wrap "failed to create composite key: "
                         (tx_lift (CreateCompositeKey "heiID"
                            [MetaInfo.Owner meta; MetaInfo.StudentID meta;
                             MetaInfo.HashValue meta]));;
       infoJSON <- tx_wrap "failed to convert struct to json object: "
                     (tx_lift (json_Marshal (DMetaInfo meta)));;
       _ <- tx_wrap put_meta_error (tx_PutState compositeKey infoJSON);;
       InitLedger_loop put_error put_meta_error rest)%tx
  end.

Definition Students : list StudentInfo.t :=
  [ StudentInfo.mk "Faculty of Engineering and Architecture"
      "Department of Computer Engineering" 190908809 "Selvi" "Osman"
      "44262495576" "02.09.2022" "Major / OSYM" "Undergraduate" 1 1 "" ].

Definition MetaStudents : list MetaInfo.t :=
  [ MetaInfo.mk "Fenerbahce University" "190908809" "StudentInfo" "NULL" ].

(** The [Point] literals [20], [21], [6], [18.9], [8] and [4] as
    [float32] bit patterns. *)
Definition TakenCourses : list TakenCourse.t :=
  [ TakenCourse.mk 190908809 "COMP1001" "AA" 0x41a00000 1 "";
    TakenCourse.mk 190908809 "COMP1003" "BA" 0x41a80000 1 "";
    TakenCourse.mk 190908809 "ENG103" "BB" 0x40c00000 1 "";
    TakenCourse.mk 190908809 "MATH1001" "CB" 0x41973333 1 "";
    TakenCourse.mk 190908809 "PHYS1001" "CC" 0x41000000 1 "";
    TakenCourse.mk 190908809 "PHYS1011" "CC" 0x40800000 1 "";
    TakenCourse.mk 190908809 "TURK103" "BB" 0x40c00000 1 "";
    TakenCourse.mk 190908809 "UNI103" "AA" 0x41000000 1 "" ].

Definition MetaTakenCourses : list MetaInfo.t :=
  repeat (MetaInfo.mk "Fenerbahce University" "190908809" "TakenCourse" "NULL") 8.

Definition CourseInfoS : list CourseInfo.t :=
  [ CourseInfo.mk "COMP1001" "Fundamentals of Computer Engineering" "C" 5 3 "";
    CourseInfo.mk "COMP1003" "Algorithms and Programming I" "C" 6 3 "";
    CourseInfo.mk "ENG103" "Advanced English I" "C" 2 2 "";
    CourseInfo.mk "MATH1001" "Calculus I" "C" 7 4 "";
    CourseInfo.mk "PHYS1001" "Physics I" "C" 4 3 "";
    CourseInfo.mk "PHYS1011" "Physics I Laboratory" "C" 2 1 "";
    CourseInfo.mk "TURK103" "Turkish Language I" "C" 2 2 "";
    CourseInfo.mk "UNI103" "University Life and Culture" "C" 2 2 "" ].

Definition MetaCourseInfoS : list MetaInfo.t :=
  repeat (MetaInfo.mk "Fenerbahce University" "190908809" "CourseInfo" "NULL") 8.

Definition InitLedger : Tx unit :=
  (_ <- InitLedger_loop "failed to put student info to world state. "
          "failed to put meta student info to world state. "
          (combine (map AStudentInfo Students) MetaStudents);;
   _ <- InitLedger_loop "failed to put course record to world state. "
          "failed to put meta student info to world state. "
          (combine (map ATakenCourse TakenCourses) MetaTakenCourses);;
   InitLedger_loop "failed to put course info record to world state. "
     "failed to put meta course info to world state. "
     (combine (map ACourseInfo CourseInfoS) MetaCourseInfoS))%tx.

End Writers.

(* ================================================================== *)
(** * Definitions used by the statements and their proofs *)
(* ================================================================== *)

Local Open Scope string_scope.

(** ** Text *)

(** [result[:len(result)-1]]. *)
Definition drop_last (s : string) : string :=
  substring 0 (String.length s - 1) s.

(** Every element followed by the separator. *)
Fixpoint join_prefix (elems : list string) (sep : string) : string :=
  match elems with
  | [] => ""
  | e :: rest => e ++ sep ++ join_prefix rest sep
  end.

(** A byte in [1, 127]: an ASCII character other than NUL. *)
Definition plain_byte (b : N) : bool := ((1 <=? b) && (b <=? 127))%N.

Definition plain (s : string) : Prop :=
  Forall (fun b => plain_byte b = true) (bytes_of_string s).

(** ** The canonical string, after the specification *)

(** Following the specification: the fields of the record "minus the
    digest field", each in textual form, joined by the separator. *)
Definition data_fields (r : Struct) : list (string * Value) :=
  filter (fun field => negb (String.eqb (fst field) "HashValue")) (reflect_fields r).

Definition canonicalize (fmt : float32 -> string) (r : Struct) : string :=
  strings_Join (map (fun field => Sprintf_v fmt (snd field)) (data_fields r)) ",".

(** ** The meta index and the queries *)

Definition meta_entry_exists (w : WorldState) (owner studentID digest : string) : Prop :=
  exists key m,
    In (key, DMetaInfo m) w
    /\ MetaInfo.Owner m = owner
    /\ MetaInfo.StudentID m = studentID
    /\ MetaInfo.HashValue m = digest.

Definition composite_key (owner studentID digest : string) : string :=
  compositeKeyNamespace ++ "heiID" ++ minUnicodeRuneValue
  ++ owner ++ minUnicodeRuneValue
  ++ studentID ++ minUnicodeRuneValue
  ++ digest ++ minUnicodeRuneValue.

(** The rows that a selector query yields. *)
Definition selected (ctx : Stub) (sel : Selector) : list (string * Doc) :=
  filter (fun kv => selector_matches sel (snd kv)) (world ctx).

Definition student_selector (relation hei studentID : string) : Selector :=
  [("owner", hei); ("relation", relation); ("student_id", studentID)].


(** The digest that a row carries in its [hash_value] member. *)
Definition row_digest (kv : string * Doc) : string :=
  match json_get "hash_value" (json_fields (snd kv)) with
  | Some (JString s) => s
  | _ => ""
  end.

Definition read_error : string := "failed to read from worldstate db : ".

Definition fetch_error : string :=
  "error during fetch taken course record by hash value: ".

Definition transcript_error : string :=
  "failed to construct the transcript from the world state db: ".

(** A loop that dereferences digests one after the other and appends:
    the result has one record per digest. *)
Fixpoint fetch_all {A K : Type} (fetch : K -> result A) (keys : list K) (acc : list A)
  : result (list A) :=
  match keys with
  | [] => Ok acc
  | k :: rest => rbind (fetch k) (fun a => fetch_all fetch rest (acc ++ [a]))
  end.

(** ** Calls of the insert operations *)

(** A call of one of the three insert functions with its arguments. *)
Inductive InsertCall : Type :=
| CallStudentInfo (owner faculty department : string) (studentId : Z)
    (surname name nationalid registrationdate registrationtype programtype : string)
    (class semester : Z)
| CallTakenCourse (owner : string) (studentId : Z) (courseCode grade : string)
    (point : float32) (takenSemester : Z)
| CallCourseInfo (owner : string) (studentnumber : Z)
    (courseCode courseName courseType : string) (ects credit : Z).

Definition run_insert (fmt : float32 -> string) (c : InsertCall) : Tx bool :=
  match c with
  | CallStudentInfo owner faculty department studentId surname name nationalid
      registrationdate registrationtype programtype class semester =>
      InsertNewRecordStudentInfo fmt owner faculty department studentId surname
        name nationalid registrationdate registrationtype programtype class semester
  | CallTakenCourse owner studentId courseCode grade point takenSemester =>
      InsertNewRecordTakenCourse fmt owner studentId courseCode grade point takenSemester
  | CallCourseInfo owner studentnumber courseCode courseName courseType ects credit =>
      InsertNewRecordCourseInfo fmt owner studentnumber courseCode courseName
        courseType ects credit
  end.

Definition call_owner (c : InsertCall) : string :=
  match c with
  | CallStudentInfo owner _ _ _ _ _ _ _ _ _ _ _ => owner
  | CallTakenCourse owner _ _ _ _ _ => owner
  | CallCourseInfo owner _ _ _ _ _ _ => owner
  end.

(** The subject-id of the meta entry: the decimal text of the integer
    argument. *)
Definition call_studentID (c : InsertCall) : string :=
  match c with
  | CallStudentInfo _ _ _ studentId _ _ _ _ _ _ _ _ => strconv_Itoa studentId
  | CallTakenCourse _ studentId _ _ _ _ => strconv_Itoa studentId
  | CallCourseInfo _ studentnumber _ _ _ _ _ => strconv_Itoa studentnumber
  end.

Definition call_relation (c : InsertCall) : string :=
  match c with
  | CallStudentInfo _ _ _ _ _ _ _ _ _ _ _ _ => "StudentInfo"
  | CallTakenCourse _ _ _ _ _ _ => "TakenCourse"
  | CallCourseInfo _ _ _ _ _ _ _ => "CourseInfo"
  end.

(** The record that the call fills from its arguments, the digest field
    still empty. *)
Definition call_record (c : InsertCall) : Struct :=
  match c with
  | CallStudentInfo _ faculty department studentId surname name nationalid
      registrationdate registrationtype programtype class semester =>
      AStudentInfo (StudentInfo.mk faculty department studentId surname name
                      nationalid registrationdate registrationtype programtype
                      class semester "")
  | CallTakenCourse _ studentId courseCode grade point takenSemester =>
      ATakenCourse (TakenCourse.mk studentId courseCode grade point takenSemester "")
  | CallCourseInfo _ _ courseCode courseName courseType ects credit =>
      ACourseInfo (CourseInfo.mk courseCode courseName courseType ects credit "")
  end.

(** Following the specification:
    [digest = Hash(canonicalize(record minus digest field))]. *)
Definition call_digest (fmt : float32 -> string) (c : InsertCall) : string :=
  StringToMD5 (canonicalize fmt (call_record c)).

(** The data record and the meta entry that a successful call stores. *)
Definition call_data (fmt : float32 -> string) (c : InsertCall) : Doc :=
  doc_of_struct (struct_set_HashValue (call_record c) (call_digest fmt c)).

Definition call_meta (fmt : float32 -> string) (c : InsertCall) : MetaInfo.t :=
  MetaInfo.mk (call_owner c) (call_studentID c) (call_relation c) (call_digest fmt c).

Definition call_composite_key (fmt : float32 -> string) (c : InsertCall) : string :=
  composite_key (call_owner c) (call_studentID c) (call_digest fmt c).

Definition state_after_insert (fmt : float32 -> string) (c : InsertCall)
    (w : WorldState) : WorldState :=
  ws_put (call_composite_key fmt c) (DMetaInfo (call_meta fmt c))
    (ws_put (call_digest fmt c) (call_data fmt c) w).

(** The calls invoked one after the other, each in its own
    transaction: their results and the final state. *)
Fixpoint run_calls (fmt : float32 -> string) (calls : list InsertCall) (w : WorldState)
  : list (result bool) * WorldState :=
  match calls with
  | [] => ([], w)
  | c :: rest =>
      let (r, w1) := invoke (run_insert fmt c) w in
      let (rs, w2) := run_calls fmt rest w1 in
      (r :: rs, w2)
  end.

(** ** The states that the contract reaches *)



(** The states reached from the empty ledger by invocations of
    [InitLedger] and of the insert operations (the other operations
    write nothing). *)
Inductive reachable (fmt : float32 -> string) : WorldState -> Prop :=
| reachable_empty : reachable fmt []
| reachable_InitLedger (w : WorldState) :
    reachable fmt w -> reachable fmt (snd (invoke (InitLedger fmt) w))
| reachable_insert (w : WorldState) (c : InsertCall) :
    reachable fmt w -> reachable fmt (snd (invoke (run_insert fmt c) w)).


(** ** The transcript join, after the specification *)

(** Following the specification: the course infos "whose course code
    matches", and "for every match, emit one CombinedCourseRecord". *)
Definition matching_infos (course : TakenCourse.t) (infoCourses : list CourseInfo.t)
  : list CourseInfo.t :=
  filter (fun info =>
            String.eqb (TakenCourse.CourseCode course) (CourseInfo.CourseCode info))
         infoCourses.

Definition CombinedCourseRecord_of (course : TakenCourse.t) (info : CourseInfo.t)
  : CombinedCourseRecords.t :=
  CombinedCourseRecords.mk
    (TakenCourse.CourseCode course)
    (CourseInfo.CourseName info) (CourseInfo.CourseType info)
    (CourseInfo.ECTS info) (CourseInfo.Credit info)
    (TakenCourse.Grade course) (TakenCourse.Point course)
    (TakenCourse.TakenSemester course).

Definition transcript_join (coursesTaken : list TakenCourse.t)
    (infoCourses : list CourseInfo.t) : list CombinedCourseRecords.t :=
  flat_map (fun course =>
              map (CombinedCourseRecord_of course) (matching_infos course infoCourses))
           coursesTaken.

(** ** Records that differ in one field *)

(** [l1] and [l2] list the same fields and differ in the value of
    exactly one of them, the field [name], which holds [v1] in [l1] and
    [v2] in [l2]. *)
Inductive differ_in_field (name : string) (v1 v2 : Value)
  : list (string * Value) -> list (string * Value) -> Prop :=
| differ_here (rest : list (string * Value)) :
    v1 <> v2 ->
    differ_in_field name v1 v2 ((name, v1) :: rest) ((name, v2) :: rest)
| differ_later (field : string * Value) (l1 l2 : list (string * Value)) :
    differ_in_field name v1 v2 l1 l2 ->
    differ_in_field name v1 v2 (field :: l1) (field :: l2).

(** Two records of the same kind that differ in the value of one
    field. *)
Definition differ_in_one_field (r1 r2 : Struct) : Prop :=
  exists name v1 v2,
    differ_in_field name v1 v2 (reflect_fields r1) (reflect_fields r2).

(** A field holds values of one type: the two values of the field that
    differs are both strings, both integers or both floats. *)
Definition same_type (v1 v2 : Value) : Prop :=
  match v1, v2 with
  | VString _, VString _ | VInt _, VInt _ | VFloat32 _, VFloat32 _ => True
  | _, _ => False
  end.

Ltac walk_fields H :=
  repeat
    match type of H with
    | differ_in_field _ _ _ (_ :: _) (_ :: _) =>
        first
          [ solve [inversion H]
          | inversion H; subst; clear H;
            [ exact I
            | match goal with
              | H' : differ_in_field _ _ _ _ _ |- _ => rename H' into H
              end ] ]
    | differ_in_field _ _ _ [] [] => inversion H
    end.

(** ** Worked examples *)

(** What [%v] prints for the [float32] values of the worked examples:
    the six [Point] literals of [InitLedger], [18] and the NaN
    [0x7fc00000]. *)
Definition example_Sprintf_float32 (f : float32) : string :=
  if (f =? 0x41a00000)%Z then "20"
  else if (f =? 0x41a80000)%Z then "21"
  else if (f =? 0x40c00000)%Z then "6"
  else if (f =? 0x41973333)%Z then "18.9"
  else if (f =? 0x41000000)%Z then "8"
  else if (f =? 0x40800000)%Z then "4"
  else if (f =? 0x41900000)%Z then "18"
  else if (f =? 0x7fc00000)%Z then "NaN"
  else "".

(** How [fmt.Sprintf("%v", f)] prints the six [Point] literals of
    [InitLedger]. *)
Definition formats_seed_points (fmt : float32 -> string) : Prop :=
  fmt 0x41a00000%Z = "20" /\ fmt 0x41a80000%Z = "21" /\ fmt 0x40c00000%Z = "6"
  /\ fmt 0x41973333%Z = "18.9" /\ fmt 0x41000000%Z = "8" /\ fmt 0x40800000%Z = "4".

(** The seed data as calls of the insert operations. *)
Definition seed_calls : list InsertCall :=
  (map (fun s =>
          CallStudentInfo "Fenerbahce University" (StudentInfo.Faculty s)
            (StudentInfo.Department s) (StudentInfo.StudentID s)
            (StudentInfo.StudentSurname s) (StudentInfo.StudentName s)
            (StudentInfo.NationalID s) (StudentInfo.RegistrationDate s)
            (StudentInfo.RegistrationType s) (StudentInfo.ProgramType s)
            (StudentInfo.Class s) (StudentInfo.StudentSemester s)) Students
   ++ map (fun c =>
             CallTakenCourse "Fenerbahce University" (TakenCourse.StudentID c)
               (TakenCourse.CourseCode c) (TakenCourse.Grade c)
               (TakenCourse.Point c) (TakenCourse.TakenSemester c)) TakenCourses
   ++ map (fun c =>
             CallCourseInfo "Fenerbahce University" 190908809
               (CourseInfo.CourseCode c) (CourseInfo.CourseName c)
               (CourseInfo.CourseType c) (CourseInfo.ECTS c) (CourseInfo.Credit c))
        CourseInfoS)%list.

Definition is_StudentInfo (kv : string * Doc) : bool :=
  match snd kv with DStudentInfo _ => true | _ => false end.

Definition is_TakenCourse (kv : string * Doc) : bool :=
  match snd kv with DTakenCourse _ => true | _ => false end.

Definition is_CourseInfo (kv : string * Doc) : bool :=
  match snd kv with DCourseInfo _ => true | _ => false end.

Definition is_MetaInfo (kv : string * Doc) : bool :=
  match snd kv with DMetaInfo _ => true | _ => false end.

Definition comp1001 : CourseInfo.t :=
  CourseInfo.mk "COMP1001" "Fundamentals of Computer Engineering" "C" 5 3 "".

Definition call_comp1001 : InsertCall :=
  CallCourseInfo "Fenerbahce University" 190908809
    "COMP1001" "Fundamentals of Computer Engineering" "C" 5 3.







(** The state that [InitLedger] leaves on an empty ledger, and that
    state after the result of COMP2004, a course without a course info,
    has been inserted for the seeded student. *)
Definition ledger : WorldState :=
  snd (invoke (InitLedger example_Sprintf_float32) []).

Definition call_comp2004 : InsertCall :=
  CallTakenCourse "Fenerbahce University" 190908809 "COMP2004" "BB" 0x41900000 4.

Definition ledger_comp2004 : WorldState :=
  state_after_insert example_Sprintf_float32 call_comp2004 ledger.

Definition ok_or_nil {A} (r : result (list A)) : list A :=
  match r with Ok l => l | Err _ => [] end.

Definition taken_comp2004 (grade : string) : Struct :=
  ATakenCourse (TakenCourse.mk 190908809 "COMP2004" grade 0x41900000 4 "").

(** Two 128-byte texts on which MD5 collides (Wang and Yu, 2004). *)
Definition collision_1 : string := string_of_bytes
  [
    0xd1; 0x31; 0xdd; 0x02; 0xc5; 0xe6; 0xee; 0xc4; 0x69; 0x3d; 0x9a; 0x06;
    0x98; 0xaf; 0xf9; 0x5c; 0x2f; 0xca; 0xb5; 0x87; 0x12; 0x46; 0x7e; 0xab;
    0x40; 0x04; 0x58; 0x3e; 0xb8; 0xfb; 0x7f; 0x89; 0x55; 0xad; 0x34; 0x06;
    0x09; 0xf4; 0xb3; 0x02; 0x83; 0xe4; 0x88; 0x83; 0x25; 0x71; 0x41; 0x5a;
    0x08; 0x51; 0x25; 0xe8; 0xf7; 0xcd; 0xc9; 0x9f; 0xd9; 0x1d; 0xbd; 0xf2;
    0x80; 0x37; 0x3c; 0x5b; 0xd8; 0x82; 0x3e; 0x31; 0x56; 0x34; 0x8f; 0x5b;
    0xae; 0x6d; 0xac; 0xd4; 0x36; 0xc9; 0x19; 0xc6; 0xdd; 0x53; 0xe2; 0xb4;
    0x87; 0xda; 0x03; 0xfd; 0x02; 0x39; 0x63; 0x06; 0xd2; 0x48; 0xcd; 0xa0;
    0xe9; 0x9f; 0x33; 0x42; 0x0f; 0x57; 0x7e; 0xe8; 0xce; 0x54; 0xb6; 0x70;
    0x80; 0xa8; 0x0d; 0x1e; 0xc6; 0x98; 0x21; 0xbc; 0xb6; 0xa8; 0x83; 0x93;
    0x96; 0xf9; 0x65; 0x2b; 0x6f; 0xf7; 0x2a; 0x70 ]%N.

Definition collision_2 : string := string_of_bytes
  [
    0xd1; 0x31; 0xdd; 0x02; 0xc5; 0xe6; 0xee; 0xc4; 0x69; 0x3d; 0x9a; 0x06;
    0x98; 0xaf; 0xf9; 0x5c; 0x2f; 0xca; 0xb5; 0x07; 0x12; 0x46; 0x7e; 0xab;
    0x40; 0x04; 0x58; 0x3e; 0xb8; 0xfb; 0x7f; 0x89; 0x55; 0xad; 0x34; 0x06;
    0x09; 0xf4; 0xb3; 0x02; 0x83; 0xe4; 0x88; 0x83; 0x25; 0xf1; 0x41; 0x5a;
    0x08; 0x51; 0x25; 0xe8; 0xf7; 0xcd; 0xc9; 0x9f; 0xd9; 0x1d; 0xbd; 0x72;
    0x80; 0x37; 0x3c; 0x5b; 0xd8; 0x82; 0x3e; 0x31; 0x56; 0x34; 0x8f; 0x5b;
    0xae; 0x6d; 0xac; 0xd4; 0x36; 0xc9; 0x19; 0xc6; 0xdd; 0x53; 0xe2; 0x34;
    0x87; 0xda; 0x03; 0xfd; 0x02; 0x39; 0x63; 0x06; 0xd2; 0x48; 0xcd; 0xa0;
    0xe9; 0x9f; 0x33; 0x42; 0x0f; 0x57; 0x7e; 0xe8; 0xce; 0x54; 0xb6; 0x70;
    0x80; 0x28; 0x0d; 0x1e; 0xc6; 0x98; 0x21; 0xbc; 0xb6; 0xa8; 0x83; 0x93;
    0x96; 0xf9; 0x65; 0xab; 0x6f; 0xf7; 0x2a; 0x70 ]%N.

Definition course_collision_1 : Struct :=
  ACourseInfo (CourseInfo.mk collision_1 "Database Management Systems" "C" 6 3 "").

Definition course_collision_2 : Struct :=
  ACourseInfo (CourseInfo.mk collision_2 "Database Management Systems" "C" 6 3 "").

(** ** Keys, write sets and the states that the contract reaches *)

(** Text without the byte [00], the separator of a composite key. *)
Definition NUL_free (s : string) : Prop :=
  Forall (fun b => b <> 0%N) (bytes_of_string s).

(** The two writes of a call that succeeds, in program order. *)
Definition call_writes (fmt : float32 -> string) (c : InsertCall) : list (string * Doc) :=
  [ (call_digest fmt c, call_data fmt c);
    (call_composite_key fmt c, DMetaInfo (call_meta fmt c)) ].

(** The record and the meta entry that [InitLedger] lists for what a
    call would insert; [InitLedger] overwrites the [HashValue] that the
    meta entry is listed with. *)
Definition seed_of_call (HashValue : string) (c : InsertCall) : Struct * MetaInfo.t :=
  (call_record c,
   MetaInfo.mk (call_owner c) (call_studentID c) (call_relation c) HashValue).


(** The keys are in strictly ascending order. *)
Definition key_lt (a b : string * Doc) : Prop :=
  String.compare (fst a) (fst b) = Lt.

Definition sorted_keys (w : WorldState) : Prop := StronglySorted key_lt w.

(** The value that a write set holds for a key: that of its last write
    to the key. *)
Fixpoint last_write (key : string) (ps : list (string * Doc)) : option Doc :=
  match ps with
  | [] => None
  | (k, v) :: rest =>
      match last_write key rest with
      | Some v' => Some v'
      | None => if String.eqb key k then Some v else None
      end
  end.

(** What dereferencing answers for a digest without a record. *)
Definition no_such_record (hashValue : string) : string :=
  "there is not a record with the given hash value: " ++ hashValue.

(** ** Further worked examples *)




Definition seeded_taken_comp1001 : TakenCourse.t :=
  TakenCourse.mk 190908809 "COMP1001" "AA" 0x41a00000 1
    "48c4c683034af0c0a03fbda1d9a1f7cd".


(** A state that holds a meta entry and no record under its digest;
    the contract does not reach it. *)
Definition dangling : WorldState :=
  [ (call_composite_key example_Sprintf_float32 call_comp2004,
     DMetaInfo (call_meta example_Sprintf_float32 call_comp2004)) ].


(* ================================================================== *)
(** * The library functions on test vectors *)
(* ================================================================== *)

Example md5_empty : StringToMD5 "" = "d41d8cd98f00b204e9800998ecf8427e".
Proof. vm_compute. reflexivity. Qed.

Example md5_abc : StringToMD5 "abc" = "900150983cd24fb0d6963f7d28e17f72".
Proof. vm_compute. reflexivity. Qed.

Example md5_courseinfo :
  StringToMD5 "COMP1001,Fundamentals of Computer Engineering,C,5,3"
  = "4f8ba6da0cd2004d5b66eb43ab883cbd".
Proof. vm_compute. reflexivity. Qed.

Example itoa_examples :
  strconv_Itoa 0 = "0" /\ strconv_Itoa 190908809 = "190908809"
  /\ strconv_Itoa (-5) = "-5".
Proof. vm_compute. repeat split. Qed.

(** The digest in the sample [IsRecordExists] query of the header
    comment of transcript.go (line 26) is the digest that the model
    gives the first seeded taken course, COMP1001 with 20 points. *)
Example digest_of_the_sample_query :
  StructToString example_Sprintf_float32
    (ATakenCourse (TakenCourse.mk 190908809 "COMP1001" "AA" 0x41a00000 1 ""))
  = "190908809,COMP1001,AA,20,1"
  /\ StructToMD5 example_Sprintf_float32
       (ATakenCourse (TakenCourse.mk 190908809 "COMP1001" "AA" 0x41a00000 1 ""))
     = "48c4c683034af0c0a03fbda1d9a1f7cd".
Proof. split; vm_compute; reflexivity. Qed.

Example StructToString_CourseInfo (fmt : float32 -> string) :
  StructToString fmt
    (ACourseInfo (CourseInfo.mk "COMP1001" "Fundamentals of Computer Engineering" "C" 5%Z 3%Z ""))
  = "COMP1001,Fundamentals of Computer Engineering,C,5,3".
Proof. reflexivity. Qed.

Example StructToString_CourseInfo_hashed (fmt : float32 -> string) :
  StructToString fmt
    (ACourseInfo (CourseInfo.mk "COMP1001" "Fundamentals of Computer Engineering" "C" 5%Z 3%Z "4f8b"))
  = "COMP1001,Fundamentals of Computer Engineering,C,5,3,4f8".
Proof. reflexivity. Qed.

(* ================================================================== *)
(** * Properties of the library functions *)
(* ================================================================== *)

(** ** Strings *)

Lemma append_nil_r (s : string) : s ++ "" = s.
Proof. induction s as [|c s IH]; simpl; congruence. Qed.

Lemma append_assoc (a b c : string) : (a ++ b) ++ c = a ++ b ++ c.
Proof. induction a as [|x a IH]; simpl; congruence. Qed.

Lemma length_append (a b : string) :
  String.length (a ++ b) = String.length a + String.length b.
Proof. induction a as [|x a IH]; simpl; congruence. Qed.

Lemma append_inv_head (a b c : string) : a ++ b = a ++ c -> b = c.
Proof. induction a as [|x a IH]; simpl; [auto | intros [= H]; auto]. Qed.

Lemma list_ascii_of_string_append (a b : string) :
  list_ascii_of_string (a ++ b)
  = (list_ascii_of_string a ++ list_ascii_of_string b)%list.
Proof. induction a as [|x a IH]; simpl; congruence. Qed.

Lemma list_ascii_of_string_inj (a b : string) :
  list_ascii_of_string a = list_ascii_of_string b -> a = b.
Proof.
  intros H. rewrite <- (string_of_list_ascii_of_string a),
    <- (string_of_list_ascii_of_string b). now rewrite H.
Qed.

Lemma append_inv_tail (a b c : string) : a ++ c = b ++ c -> a = b.
Proof.
  intros H. apply list_ascii_of_string_inj.
  apply (f_equal list_ascii_of_string) in H.
  rewrite !list_ascii_of_string_append in H.
  now apply app_inv_tail in H.
Qed.

Lemma drop_last_cons (c : ascii) (s : string) :
  s <> "" -> drop_last (String c s) = String c (drop_last s).
Proof.
  unfold drop_last. destruct s as [|d s]; [congruence|]. intros _.
  cbn [String.length]. rewrite !Nat.sub_succ, !Nat.sub_0_r. reflexivity.
Qed.

Lemma drop_last_append (a b : string) :
  b <> "" -> drop_last (a ++ b) = a ++ drop_last b.
Proof.
  intros Hb. induction a as [|x a IH]; [reflexivity|].
  cbn [append]. rewrite drop_last_cons, IH; [reflexivity|].
  destruct a; [exact Hb | discriminate].
Qed.

(** ** [strings.Join] *)

Lemma strings_Join_cons (e : string) (rest : list string) (sep : string) :
  rest <> [] -> strings_Join (e :: rest) sep = e ++ sep ++ strings_Join rest sep.
Proof. destruct rest; [congruence | reflexivity]. Qed.

Lemma strings_Join_app (l1 l2 : list string) (sep : string) :
  l2 <> [] ->
  strings_Join (l1 ++ l2)%list sep = join_prefix l1 sep ++ strings_Join l2 sep.
Proof.
  intros H2. induction l1 as [|e l1 IH]; [reflexivity|].
  cbn [app join_prefix]. rewrite strings_Join_cons, IH, !append_assoc; [reflexivity|].
  destruct l1; [exact H2 | discriminate].
Qed.

Lemma join_prefix_Join (l : list string) (sep : string) :
  l <> [] -> join_prefix l sep = strings_Join l sep ++ sep.
Proof.
  induction l as [|e l IH]; [congruence|]. intros _.
  destruct l as [|e' l].
  - cbn. now rewrite append_nil_r.
  - rewrite strings_Join_cons by discriminate.
    cbn [join_prefix] in *. rewrite IH by discriminate.
    now rewrite !append_assoc.
Qed.

(** ** [strconv.Itoa] *)

Lemma strconv_Itoa_inj (n m : Z) : strconv_Itoa n = strconv_Itoa m -> n = m.
Proof.
  unfold strconv_Itoa. intros H.
  apply DecimalZ.to_int_inj.
  assert (Hnn : forall z, Z.to_int z <> Decimal.Pos Decimal.Nil
                          /\ Z.to_int z <> Decimal.Neg Decimal.Nil).
  { intros [|p|p]; cbn; split; try discriminate;
      intros [= Hp]; now apply DecimalPos.Unsigned.to_uint_nonnil in Hp. }
  apply (f_equal NilZero.int_of_string) in H.
  rewrite !NilZero.isi in H by apply Hnn.
  now injection H.
Qed.

(** ** Text that a composite key accepts *)

Lemma plain_validate (s : string) :
  plain s -> validateCompositeKeyAttribute s = Ok tt.
Proof.
  unfold plain, validateCompositeKeyAttribute. intros H.
  assert (Hv : utf8_Valid (bytes_of_string s) = true
               /\ has_min_or_max_rune (bytes_of_string s) = false).
  { induction H as [|b bs Hb _ [IH1 IH2]]; [split; reflexivity|].
    unfold plain_byte in Hb. apply andb_true_iff in Hb as [H1 H2].
    apply N.leb_le in H1, H2. split.
    - cbn [utf8_Valid]. replace (b <? 128)%N with true; [exact IH1|].
      symmetry. apply N.ltb_lt. lia.
    - cbn [has_min_or_max_rune]. rewrite IH2.
      replace (b =? 0)%N with false by (symmetry; apply N.eqb_neq; lia).
      replace (b =? 244)%N with false by (symmetry; apply N.eqb_neq; lia).
      destruct bs as [|? [|? [|? ?]]]; reflexivity. }
  destruct Hv as [-> ->]. reflexivity.
Qed.

Lemma plain_String (c : ascii) (s : string) :
  plain (String c s) <-> plain_byte (N_of_ascii c) = true /\ plain s.
Proof.
  unfold plain, bytes_of_string. cbn [list_ascii_of_string map].
  split; [intros H; inversion H; auto | intros [H1 H2]; constructor; auto].
Qed.

Lemma plain_nil : plain "".
Proof. constructor. Qed.

Lemma plain_string_of_uint (d : Decimal.uint) : plain (NilEmpty.string_of_uint d).
Proof.
  induction d; cbn [NilEmpty.string_of_uint];
    [apply plain_nil | apply plain_String; split; [reflexivity | assumption] ..].
Qed.

Lemma plain_Itoa (n : Z) : plain (strconv_Itoa n).
Proof.
  unfold strconv_Itoa.
  assert (Hu : forall d, plain (NilZero.string_of_uint d)).
  { intros d. destruct d; try apply plain_string_of_uint.
    apply plain_String; split; [reflexivity | apply plain_nil]. }
  destruct (Z.to_int n) as [d|d]; cbn [NilZero.string_of_int]; [apply Hu|].
  apply plain_String; split; [reflexivity | apply Hu].
Qed.

(** ** [encoding/hex] and the shape of a digest *)

Lemma hexdigit_plain (n : N) : plain_byte (N_of_ascii (hexdigit n)) = true.
Proof.
  unfold hexdigit.
  destruct (nth_in_or_default (N.to_nat n) hextable "0"%char) as [H | ->];
    [|reflexivity].
  revert H. generalize (nth (N.to_nat n) hextable "0"%char). intros c H.
  cbn in H. repeat (destruct H as [<- | H]; [reflexivity|]). contradiction.
Qed.

Lemma plain_hex (src : list N) : plain (hex_EncodeToString src).
Proof.
  induction src as [|b src IH]; [apply plain_nil|].
  cbn [hex_EncodeToString].
  apply plain_String; split; [apply hexdigit_plain|].
  apply plain_String; split; [apply hexdigit_plain | exact IH].
Qed.

Lemma plain_StringToMD5 (value : string) : plain (StringToMD5 value).
Proof. apply plain_hex. Qed.

Lemma length_hex (src : list N) :
  String.length (hex_EncodeToString src) = 2 * List.length src.
Proof. induction src as [|b src IH]; cbn [hex_EncodeToString String.length List.length]; lia. Qed.

Lemma length_le_bytes (n : nat) (x : N) : List.length (MD5.le_bytes n x) = n.
Proof. revert x. induction n as [|n IH]; intros x; cbn; [reflexivity | now rewrite IH]. Qed.

Lemma length_MD5_Sum (msg : list N) : List.length (MD5.Sum msg) = 16.
Proof. unfold MD5.Sum. rewrite !length_app, !length_le_bytes. reflexivity. Qed.

(** A digest is 32 characters long. *)
Lemma length_StringToMD5 (value : string) : String.length (StringToMD5 value) = 32.
Proof. unfold StringToMD5. now rewrite length_hex, length_MD5_Sum. Qed.

Lemma StringToMD5_nonempty (value : string) : StringToMD5 value <> "".
Proof.
  intros H. apply (f_equal String.length) in H.
  rewrite length_StringToMD5 in H. discriminate.
Qed.

(** A plain text never starts with the NUL byte, as a composite key does. *)
Lemma plain_not_NUL_first (s rest : string) :
  plain s -> s <> String (ascii_of_N 0) rest.
Proof.
  intros H ->. apply plain_String in H as [H _]. discriminate.
Qed.

(* ================================================================== *)
(** * The canonical string of a record *)
(* ================================================================== *)

Lemma reflect_fields_split (r : Struct) :
  reflect_fields r
  = (data_fields r ++ [("HashValue", VString (struct_HashValue r))])%list.
Proof. destruct r; reflexivity. Qed.

Lemma data_fields_nonempty (r : Struct) : data_fields r <> [].
Proof. destruct r; discriminate. Qed.

Lemma data_fields_set_HashValue (r : Struct) (h : string) :
  data_fields (struct_set_HashValue r h) = data_fields r.
Proof. destruct r as [[]|[]|[]]; reflexivity. Qed.

Lemma struct_HashValue_set (r : Struct) (h : string) :
  struct_HashValue (struct_set_HashValue r h) = h.
Proof. destruct r; reflexivity. Qed.

Lemma canonicalize_set_HashValue (fmt : float32 -> string) (r : Struct) (h : string) :
  canonicalize fmt (struct_set_HashValue r h) = canonicalize fmt r.
Proof. unfold canonicalize. now rewrite data_fields_set_HashValue. Qed.

(** No field of the three record kinds is called ["HashCode"]: the
    test in the loop of [StructToString] never skips a field. *)
Lemma StructToString_joined (fmt : float32 -> string) (r : Struct) :
  StructToString fmt r
  = drop_last (strings_Join
                 (map (fun field => Sprintf_v fmt (snd field)) (reflect_fields r)) ",").
Proof. destruct r; reflexivity. Qed.

(** The string that is hashed: the canonical string, followed, when the
    digest field is not empty, by the separator and the digest field
    less its last byte. *)
Lemma StructToString_canonical (fmt : float32 -> string) (r : Struct) :
  StructToString fmt r
  = canonicalize fmt r
    ++ match struct_HashValue r with
       | "" => ""
       | h => "," ++ drop_last h
       end.
Proof.
  rewrite StructToString_joined, reflect_fields_split, map_app.
  rewrite strings_Join_app by discriminate.
  rewrite join_prefix_Join
    by (intros H; apply map_eq_nil in H; now apply data_fields_nonempty in H).
  fold (canonicalize fmt r). cbn [map snd strings_Join Sprintf_v].
  rewrite append_assoc.
  destruct (struct_HashValue r) as [|c h].
  - rewrite drop_last_append by discriminate. reflexivity.
  - rewrite drop_last_append by discriminate.
    rewrite (drop_last_append "," (String c h)) by discriminate. reflexivity.
Qed.

(** The joined string is never empty, so [result[:len(result)-1]] is in
    range. *)
Lemma strings_Join_fields_nonempty (fmt : float32 -> string) (r : Struct) :
  strings_Join (map (fun field => Sprintf_v fmt (snd field)) (reflect_fields r)) ","
  <> "".
Proof.
  rewrite reflect_fields_split, map_app, strings_Join_app by discriminate.
  rewrite join_prefix_Join
    by (intros H; apply map_eq_nil in H; now apply data_fields_nonempty in H).
  rewrite append_assoc. intros H. apply (f_equal String.length) in H.
  rewrite !length_append in H. cbn in H. lia.
Qed.

(** With an empty digest field, as at insert time, the hashed string is
    the canonical string of the specification. *)
Lemma StructToString_empty_digest (fmt : float32 -> string) (r : Struct) :
  struct_HashValue r = "" -> StructToString fmt r = canonicalize fmt r.
Proof.
  intros H. rewrite StructToString_canonical, H. apply append_nil_r.
Qed.

(* ================================================================== *)
(** * Properties of the stub *)
(* ================================================================== *)

Lemma ws_get_put_same (key : string) (value : Doc) (w : WorldState) :
  ws_get key (ws_put key value w) = Some value.
Proof.
  induction w as [|[k v] w IH]; cbn [ws_put ws_get].
  - now rewrite String.eqb_refl.
  - destruct (String.compare key k) eqn:Hc; cbn [ws_get].
    + now rewrite String.eqb_refl.
    + now rewrite String.eqb_refl.
    + destruct (String.eqb_spec key k) as [->|_]; [|exact IH].
      pose proof (String.compare_antisym k k) as Ha.
      rewrite Hc in Ha. discriminate.
Qed.

Lemma ws_get_put_other (key key' : string) (value : Doc) (w : WorldState) :
  key <> key' -> ws_get key' (ws_put key value w) = ws_get key' w.
Proof.
  intros Hne. induction w as [|[k v] w IH]; cbn [ws_put ws_get].
  - destruct (String.eqb_spec key' key); [congruence | reflexivity].
  - destruct (String.compare key k) eqn:Hc; cbn [ws_get].
    + apply String.compare_eq_iff in Hc. subst k.
      destruct (String.eqb_spec key' key); [congruence | reflexivity].
    + destruct (String.eqb_spec key' key); [congruence | reflexivity].
    + now rewrite IH.
Qed.


(** ** The existence query *)

Lemma selector_triple_matches (owner studentID digest : string) (d : Doc) :
  selector_matches
    [("owner", owner); ("student_id", studentID); ("hash_value", digest)] d = true
  <-> exists m, d = DMetaInfo m
                /\ MetaInfo.Owner m = owner
                /\ MetaInfo.StudentID m = studentID
                /\ MetaInfo.HashValue m = digest.
Proof.
  split.
  - destruct d as [s|c|c|m]; cbn; try discriminate.
    intros H. apply andb_true_iff in H as [H1 H].
    apply andb_true_iff in H as [H2 H]. apply andb_true_iff in H as [H3 _].
    apply String.eqb_eq in H1, H2, H3. eauto.
  - intros (m & -> & <- & <- & <-). cbn. now rewrite !String.eqb_refl.
Qed.

Lemma HasNext_filter {A} (f : A -> bool) (l : list A) :
  HasNext (filter f l) = true <-> exists x, In x l /\ f x = true.
Proof.
  split.
  - destruct (filter f l) as [|x rest] eqn:Hf; [discriminate|]. intros _.
    exists x. apply filter_In. rewrite Hf. now left.
  - intros (x & Hx & Hfx).
    assert (Hin : In x (filter f l)) by (apply filter_In; auto).
    destruct (filter f l); [contradiction | reflexivity].
Qed.

Lemma IsRecordExists_total (ctx : Stub) (owner studentID digest : string) :
  IsRecordExists ctx owner studentID digest
  = Ok (HasNext (filter
         (fun kv => selector_matches
            [("owner", owner); ("student_id", studentID); ("hash_value", digest)]
            (snd kv)) (world ctx))).
Proof. unfold IsRecordExists, GetQueryResult. cbn. now destruct (HasNext _). Qed.

Lemma IsRecordExists_true (ctx : Stub) (owner studentID digest : string) :
  IsRecordExists ctx owner studentID digest = Ok true
  <-> meta_entry_exists (world ctx) owner studentID digest.
Proof.
  rewrite IsRecordExists_total. unfold meta_entry_exists. split.
  - intros [= H]. apply HasNext_filter in H as ([k d] & Hin & Hm).
    apply selector_triple_matches in Hm as (m & Hd & Hm). cbn in Hd. subst d.
    eauto.
  - intros (k & m & Hin & Hm). f_equal. apply HasNext_filter.
    exists (k, DMetaInfo m). split; [exact Hin|]. cbn [snd].
    apply selector_triple_matches. exists m. tauto.
Qed.

Lemma IsRecordExists_false (ctx : Stub) (owner studentID digest : string) :
  IsRecordExists ctx owner studentID digest = Ok false
  <-> ~ meta_entry_exists (world ctx) owner studentID digest.
Proof.
  rewrite <- IsRecordExists_true, IsRecordExists_total.
  destruct (HasNext _); split; congruence.
Qed.

(** ** Composite keys of meta entries *)

Lemma CreateCompositeKey_heiID (owner studentID digest : string) :
  plain studentID -> plain digest ->
  CreateCompositeKey "heiID" [owner; studentID; digest]
  = rbind (validateCompositeKeyAttribute owner)
      (fun _ => Ok (composite_key owner studentID digest)).
Proof.
  intros Hs Hd. unfold CreateCompositeKey.
  replace (validateCompositeKeyAttribute "heiID") with (Ok tt) by reflexivity.
  cbn [rbind CreateCompositeKey_attributes].
  destruct (validateCompositeKeyAttribute owner) as [[]|e]; cbn [rbind]; [|reflexivity].
  rewrite (plain_validate _ Hs), (plain_validate _ Hd). cbn [rbind].
  unfold composite_key. now rewrite !append_assoc.
Qed.

Lemma composite_key_not_plain (owner studentID digest s : string) :
  plain s -> s <> composite_key owner studentID digest.
Proof. intros H. now apply plain_not_NUL_first. Qed.

Lemma composite_key_nonempty (owner studentID digest : string) :
  String.eqb (composite_key owner studentID digest) "" = false.
Proof. reflexivity. Qed.

(* ================================================================== *)
(** * The insert operations *)
(* ================================================================== *)

Lemma call_record_HashValue (c : InsertCall) : struct_HashValue (call_record c) = "".
Proof. destruct c; reflexivity. Qed.

Lemma StructToMD5_call_record (fmt : float32 -> string) (c : InsertCall) :
  StructToMD5 fmt (call_record c) = call_digest fmt c.
Proof.
  unfold StructToMD5, call_digest.
  now rewrite StructToString_empty_digest by apply call_record_HashValue.
Qed.

Lemma plain_call_studentID (c : InsertCall) : plain (call_studentID c).
Proof. destruct c; apply plain_Itoa. Qed.

(** What a call does, step by step: the existence check, the encoding
    of the record, the first write, the composite key, the second
    write. *)
Lemma run_insert_steps (fmt : float32 -> string) (c : InsertCall) (ctx : Stub) :
  run_insert fmt c ctx
  = match IsRecordExists ctx (call_owner c) (call_studentID c) (call_digest fmt c) with
    | Err e => (Err e, ctx)
    | Ok true => (Err record_exists, ctx)
    | Ok false =>
        match json_Marshal (call_data fmt c) with
        | Err e => (Err ("failed to convert struct to json object: " ++ e), ctx)
        | Ok jsonRecord =>
            match validateCompositeKeyAttribute (call_owner c) with
            | Err e =>
                (Err ("failed to create composite key: " ++ e),
                 mkStub (world ctx)
                   (writes ctx ++ [(call_digest fmt c, jsonRecord)]))
            | Ok _ =>
                (Ok true,
                 mkStub (world ctx)
                   ((writes ctx ++ [(call_digest fmt c, jsonRecord)])
                    ++ [(call_composite_key fmt c, DMetaInfo (call_meta fmt c))]))
            end
        end
    end.
Proof.
  assert (Hgen : forall record relation owner studentId,
    struct_HashValue record = "" ->
    InsertNewRecord fmt record relation owner studentId ctx
    = let digest := StringToMD5 (canonicalize fmt record) in
      match IsRecordExists ctx owner (strconv_Itoa studentId) digest with
      | Err e => (Err e, ctx)
      | Ok true => (Err record_exists, ctx)
      | Ok false =>
          match json_Marshal (doc_of_struct (struct_set_HashValue record digest)) with
          | Err e => (Err ("failed to convert struct to json object: " ++ e), ctx)
          | Ok jsonRecord =>
              match validateCompositeKeyAttribute owner with
              | Err e =>
                  (Err ("failed to create composite key: " ++ e),
                   mkStub (world ctx) (writes ctx ++ [(digest, jsonRecord)]))
              | Ok _ =>
                  (Ok true,
                   mkStub (world ctx)
                     ((writes ctx ++ [(digest, jsonRecord)])
                      ++ [(composite_key owner (strconv_Itoa studentId) digest,
                           DMetaInfo (MetaInfo.mk owner (strconv_Itoa studentId)
                                        relation digest))]))
              end
          end
      end).
  { intros record relation owner studentId Hempty.
    unfold InsertNewRecord, StructToMD5.
    rewrite (StructToString_empty_digest fmt record Hempty).
    set (digest := StringToMD5 (canonicalize fmt record)).
    cbv zeta. unfold tx_bind at 1. unfold tx_wrap at 1. unfold tx_read.
    destruct (IsRecordExists ctx owner (strconv_Itoa studentId) digest) as [[|]|e];
      cbn [wrap]; [reflexivity | | reflexivity].
    unfold tx_bind at 1. unfold tx_wrap at 1. unfold tx_lift at 1.
    destruct (json_Marshal (doc_of_struct (struct_set_HashValue record digest)))
      as [jsonRecord|e]; cbn [wrap]; [|reflexivity].
    unfold tx_bind at 1. unfold tx_wrap at 1. unfold tx_PutState at 1, PutState.
    rewrite struct_HashValue_set.
    replace (String.eqb digest "") with false
      by (symmetry; apply String.eqb_neq, StringToMD5_nonempty).
    cbn [wrap]. unfold tx_bind at 1. unfold tx_wrap at 1. unfold tx_lift at 1.
    cbn [MetaInfo.Owner MetaInfo.StudentID MetaInfo.HashValue].
    rewrite CreateCompositeKey_heiID by (apply plain_Itoa || apply plain_StringToMD5).
    destruct (validateCompositeKeyAttribute owner) as [[]|e]; cbn [rbind wrap];
      [|reflexivity].
    unfold tx_bind at 1. unfold tx_wrap at 1. unfold tx_lift at 1.
    cbn [json_Marshal wrap]. unfold tx_bind at 1. unfold tx_wrap at 1.
    unfold tx_PutState, PutState. rewrite composite_key_nonempty.
    cbn [wrap writes world]. reflexivity. }
  destruct c; cbn [run_insert]; unfold InsertNewRecordStudentInfo,
    InsertNewRecordTakenCourse, InsertNewRecordCourseInfo;
    rewrite Hgen by reflexivity; reflexivity.
Qed.

Lemma json_Marshal_ok (v d : Doc) : json_Marshal v = Ok d -> d = v.
Proof.
  destruct v as [s|c|c|m]; unfold json_Marshal;
    try (intros H; injection H as <-; reflexivity).
  destruct (float32_finite (TakenCourse.Point c)).
  - intros H; injection H as <-; reflexivity.
  - intros H; discriminate H.
Qed.

Lemma json_Marshal_is_ok (v : Doc) :
  is_ok (json_Marshal v) = true -> json_Marshal v = Ok v.
Proof.
  destruct (json_Marshal v) as [d|e] eqn:H; [|discriminate].
  intros _. now rewrite (json_Marshal_ok _ _ H).
Qed.

(* ------------------------------------------------------------------ *)
(** ** C1: the digest field and its own hash input *)
(* ------------------------------------------------------------------ *)

(** Whatever the record, a digest field that is not empty changes the
    string that is hashed. *)
Lemma StructToString_HashValue_contributes (fmt : float32 -> string)
    (r : Struct) (h : string) :
  h <> "" ->
  StructToString fmt (struct_set_HashValue r h)
  <> StructToString fmt (struct_set_HashValue r "").
Proof.
  intros Hh. rewrite !StructToString_canonical, !struct_HashValue_set,
    !canonicalize_set_HashValue.
  destruct h as [|c h]; [congruence|].
  intros H. apply append_inv_head in H. discriminate.
Qed.

(** C1 (the code departs from the claim).  The claim: [StructToMD5]
    gives the same digest for a record whatever its digest field holds.
    On the course record COMP1001 of the seed data, the digest computed
    at insert time, with the digest field empty, is [4f8b...3cbd];
    recomputed on the stored record, whose digest field holds that
    value, it is [0abd...1a64]: the field named [HashValue] passes the
    test against ["HashCode"] and is hashed with the other fields. *)
Theorem StructToMD5_depends_on_HashValue (fmt : float32 -> string) :
  StructToMD5 fmt (ACourseInfo comp1001) = "4f8ba6da0cd2004d5b66eb43ab883cbd"
  /\ StructToMD5 fmt
       (ACourseInfo
          (CourseInfo.set_HashValue comp1001 "4f8ba6da0cd2004d5b66eb43ab883cbd"))
     = "0abdc97e02d0fc69dd694914180a1a64".
Proof. split; vm_compute; reflexivity. Qed.



(* ------------------------------------------------------------------ *)
(** ** C5: a rejected duplicate writes nothing *)
(* ------------------------------------------------------------------ *)



(** ** What a successful insert leaves in the state *)



(** A call that succeeds had these three conditions, returns [true]
    and issues exactly the two writes. *)
Lemma invoke_insert_ok (fmt : float32 -> string) (c : InsertCall)
    (w w' : WorldState) (b : bool) :
  invoke (run_insert fmt c) w = (Ok b, w') ->
  b = true
  /\ w' = state_after_insert fmt c w
  /\ ~ meta_entry_exists w (call_owner c) (call_studentID c) (call_digest fmt c)
  /\ validateCompositeKeyAttribute (call_owner c) = Ok tt
  /\ json_Marshal (call_data fmt c) = Ok (call_data fmt c).
Proof.
  unfold invoke. rewrite run_insert_steps.
  destruct (IsRecordExists (new_transaction w) (call_owner c) (call_studentID c)
              (call_digest fmt c)) as [[|]|e] eqn:Hex;
    [intros H; discriminate H | | intros H; discriminate H].
  apply IsRecordExists_false in Hex.
  destruct (json_Marshal (call_data fmt c)) as [d|e] eqn:Hjson;
    [|intros H; discriminate H].
  apply json_Marshal_ok in Hjson as Hd. subst d.
  destruct (validateCompositeKeyAttribute (call_owner c)) as [[]|e] eqn:Hkey;
    [|intros H; discriminate H].
  intros H. injection H as <- <-. repeat split; auto.
Qed.


Lemma data_after_insert (fmt : float32 -> string) (c : InsertCall) (w : WorldState) :
  ws_get (call_digest fmt c) (state_after_insert fmt c w) = Some (call_data fmt c).
Proof.
  unfold state_after_insert. rewrite ws_get_put_other.
  - apply ws_get_put_same.
  - intros H. symmetry in H. revert H.
    apply composite_key_not_plain, plain_StringToMD5.
Qed.

Lemma meta_after_insert (fmt : float32 -> string) (c : InsertCall) (w : WorldState) :
  ws_get (call_composite_key fmt c) (state_after_insert fmt c w)
  = Some (DMetaInfo (call_meta fmt c)).
Proof. apply ws_get_put_same. Qed.

(* ------------------------------------------------------------------ *)
(** ** C2: duplicate rejection *)
(* ------------------------------------------------------------------ *)




(* ------------------------------------------------------------------ *)
(** ** C3: the store is content-addressed *)
(* ------------------------------------------------------------------ *)

(** C3.  For every insert call that succeeds: the digest that the code
    computes, on the record with its digest field still empty, is the
    hash of the canonical string of the record without its digest
    field; the data record is stored under that digest and carries it
    in its [HashValue] field ([hash_value] in the stored JSON); the meta
    entry is stored under the composite key of (owner, subject-id,
    digest); and another successful call whose record has the same
    field values stores the same data record under the same key. *)
Theorem insert_content_addressed (fmt : float32 -> string)
    (c : InsertCall) (w w' : WorldState) (b : bool) :
  invoke (run_insert fmt c) w = (Ok b, w') ->
  let digest := StringToMD5 (canonicalize fmt (call_record c)) in
  let stored := doc_of_struct (struct_set_HashValue (call_record c) digest) in
  StructToMD5 fmt (call_record c) = digest
  /\ ws_get digest w' = Some stored
  /\ json_get "hash_value" (json_fields stored) = Some (JString digest)
  /\ ws_get (composite_key (call_owner c) (call_studentID c) digest) w'
     = Some (DMetaInfo (MetaInfo.mk (call_owner c) (call_studentID c)
                          (call_relation c) digest))
  /\ (forall (c2 : InsertCall) (w2 w2' : WorldState) (b2 : bool),
        call_record c2 = call_record c ->
        invoke (run_insert fmt c2) w2 = (Ok b2, w2') ->
        ws_get digest w2' = Some stored).
Proof.
  intros Hok digest stored.
  apply invoke_insert_ok in Hok as (_ & -> & _).
  subst stored digest.
  change (StringToMD5 (canonicalize fmt (call_record c))) with (call_digest fmt c).
  change (doc_of_struct (struct_set_HashValue (call_record c) (call_digest fmt c)))
    with (call_data fmt c).
  split; [exact (StructToMD5_call_record fmt c)|].
  split; [exact (data_after_insert fmt c w)|].
  split; [unfold call_data; destruct (call_record c); reflexivity|].
  split; [exact (meta_after_insert fmt c w)|].
  intros c2 w2 w2' b2 Hrec Hok2.
  apply invoke_insert_ok in Hok2 as (_ & -> & _).
  replace (call_digest fmt c) with (call_digest fmt c2)
    by (unfold call_digest; now rewrite Hrec).
  replace (call_data fmt c) with (call_data fmt c2)
    by (unfold call_data, call_digest; now rewrite Hrec).
  exact (data_after_insert fmt c2 w2).
Qed.

Lemma insert_content_addressed_witness :
  ws_get "4f8ba6da0cd2004d5b66eb43ab883cbd"
    (snd (invoke (run_insert example_Sprintf_float32 call_comp1001) []))
  = Some (DCourseInfo
            (CourseInfo.set_HashValue comp1001 "4f8ba6da0cd2004d5b66eb43ab883cbd")).
Proof.
  refine (proj1 (proj2 (insert_content_addressed example_Sprintf_float32
                          call_comp1001 [] _ true _))).
  vm_compute. reflexivity.
Defined.

(* ================================================================== *)
(** * The queries *)
(* ================================================================== *)

Lemma GetQueryResult_selected (ctx : Stub) (sel : Selector) :
  GetQueryResult ctx sel = Ok (selected ctx sel).
Proof. reflexivity. Qed.

Lemma json_Unmarshal_MetaInfo_meta (m : MetaInfo.t) :
  json_Unmarshal_MetaInfo (DMetaInfo m) = Ok m.
Proof. destruct m; reflexivity. Qed.

(** Only a meta entry has an [owner] member. *)
Lemma selector_owner_meta (sel : Selector) (hei : string) (d : Doc) :
  selector_matches (("owner", hei) :: sel) d = true -> exists m, d = DMetaInfo m.
Proof. destruct d as [s|c|c|m]; cbn; try discriminate. eauto. Qed.

Lemma selected_meta (ctx : Stub) (sel : Selector) (hei : string) :
  Forall (fun kv => exists m, snd kv = DMetaInfo m) (selected ctx (("owner", hei) :: sel)).
Proof.
  apply Forall_forall. intros kv Hin. apply filter_In in Hin as [_ Hm].
  now apply selector_owner_meta in Hm.
Qed.

Lemma collect_HashValues_meta (rows : list (string * Doc)) (hashValues : list string) :
  Forall (fun kv => exists m, snd kv = DMetaInfo m) rows ->
  collect_HashValues rows hashValues = Ok (hashValues ++ map row_digest rows)%list.
Proof.
  intros H. revert hashValues.
  induction H as [|kv rows [m Hm] _ IH]; intros hashValues; cbn [collect_HashValues map].
  - now rewrite app_nil_r.
  - rewrite Hm, json_Unmarshal_MetaInfo_meta. cbn [wrap rbind].
    rewrite IH, <- app_assoc. cbn [app]. unfold row_digest at 2. rewrite Hm.
    destruct m; reflexivity.
Qed.


(** The digests of a student's records: an error when the selector
    yields nothing, the digests of the rows in iteration order
    otherwise. *)
Lemma Get_Student_HashValues_eq (relation : string) (ctx : Stub) (hei studentID : string) :
  Get_Student_HashValues relation ctx hei studentID
  = match selected ctx (student_selector relation hei studentID) with
    | [] => Err no_record_found
    | rows => Ok (map row_digest rows)
    end.
Proof.
  unfold Get_Student_HashValues, GetQueryResult. cbn [wrap rbind].
  fold (student_selector relation hei studentID).
  fold (selected ctx (student_selector relation hei studentID)).
  pose proof (selected_meta ctx [("relation", relation); ("student_id", studentID)] hei) as H.
  fold (student_selector relation hei studentID) in H.
  destruct (selected ctx (student_selector relation hei studentID)) as [|kv rows];
    [reflexivity|].
  cbn [HasNext negb]. now rewrite collect_HashValues_meta.
Qed.


(** ** The fetch loops *)


Lemma Get_Student_CourseInfos_loop_eq (ctx : Stub) (hs : list string) (acc : list CourseInfo.t) :
  Get_Student_CourseInfos_loop ctx hs acc
  = fetch_all (fun h => wrap fetch_error (Get_CourseInfo_ByHashValue ctx h)) hs acc.
Proof.
  revert acc. induction hs as [|h hs IH]; intros acc; cbn; [reflexivity|].
  destruct (wrap _ _); cbn [rbind]; [apply IH | reflexivity].
Qed.

Lemma Get_Student_TakenCourses_loop_eq (ctx : Stub) (hs : list string) (acc : list TakenCourse.t) :
  Get_Student_TakenCourses_loop ctx hs acc
  = fetch_all (fun h => wrap fetch_error (Get_TakenCourse_ByHashValue ctx h)) hs acc.
Proof.
  revert acc. induction hs as [|h hs IH]; intros acc; cbn; [reflexivity|].
  destruct (wrap _ _); cbn [rbind]; [apply IH | reflexivity].
Qed.




(** The loop of [Get_Student_StudentInfo] keeps the record of the last
    digest. *)
Lemma Get_Student_StudentInfo_loop_snoc (ctx : Stub) (hs : list string) (h : string)
    (acc : option StudentInfo.t) :
  Get_Student_StudentInfo_loop ctx (hs ++ [h]) acc
  = rbind (Get_Student_StudentInfo_loop ctx hs acc)
      (fun _ => rbind (wrap fetch_error (Get_StudentInfo_ByHashValue ctx h))
                  (fun info => Ok (Some info))).
Proof.
  revert acc. induction hs as [|h' hs IH]; intros acc; cbn [app Get_Student_StudentInfo_loop].
  - reflexivity.
  - fold fetch_error.
    destruct (wrap fetch_error (Get_StudentInfo_ByHashValue ctx h')); cbn [rbind];
      [apply IH | reflexivity].
Qed.


Lemma wrap_is_ok {A} (prefix : string) (r : result A) :
  is_ok (wrap prefix r) = is_ok r.
Proof. destruct r; reflexivity. Qed.


Lemma Get_Student_HashValues_nonempty (relation : string) (ctx : Stub)
    (hei studentID : string) (hs : list string) :
  Get_Student_HashValues relation ctx hei studentID = Ok hs ->
  hs = map row_digest (selected ctx (student_selector relation hei studentID))
  /\ hs <> [].
Proof.
  rewrite Get_Student_HashValues_eq.
  destruct (selected ctx (student_selector relation hei studentID)); [discriminate|].
  intros [= <-]. split; [reflexivity | discriminate].
Qed.




(** [Get_Student_StudentInfo] answers with the record of the last
    digest that the selector yields. *)
Lemma Get_Student_StudentInfo_last (ctx : Stub) (hei studentID : string)
    (hs : list string) (res : option StudentInfo.t) :
  Get_Student_StudentInfo_HashValues ctx hei studentID = Ok hs ->
  Get_Student_StudentInfo ctx hei studentID = Ok res ->
  exists info, res = Some info
               /\ Get_StudentInfo_ByHashValue ctx (last hs "") = Ok info.
Proof.
  intros Hhs. unfold Get_Student_StudentInfo. rewrite Hhs. cbn [wrap rbind].
  apply Get_Student_HashValues_nonempty in Hhs as [_ Hne].
  destruct (exists_last Hne) as (hs' & h & ->).
  rewrite Get_Student_StudentInfo_loop_snoc, last_last.
  destruct (Get_Student_StudentInfo_loop ctx hs' None); cbn [rbind]; [|discriminate].
  destruct (Get_StudentInfo_ByHashValue ctx h) as [info|e]; cbn [wrap rbind];
    [|discriminate].
  intros [= <-]. eauto.
Qed.

Lemma Get_Student_StudentInfo_some (ctx : Stub) (hei studentID : string)
    (res : option StudentInfo.t) :
  Get_Student_StudentInfo ctx hei studentID = Ok res -> exists info, res = Some info.
Proof.
  intros H.
  destruct (Get_Student_StudentInfo_HashValues ctx hei studentID) as [hs|e] eqn:Hhs.
  - destruct (Get_Student_StudentInfo_last _ _ _ _ _ Hhs H) as (info & -> & _). eauto.
  - unfold Get_Student_StudentInfo in H. rewrite Hhs in H. discriminate H.
Qed.

(* ------------------------------------------------------------------ *)
(** ** C7: an empty selector result is an error *)
(* ------------------------------------------------------------------ *)



(* ------------------------------------------------------------------ *)
(** ** C10: no transcript without course records *)
(* ------------------------------------------------------------------ *)



(* ------------------------------------------------------------------ *)
(** ** C6: the transcript join *)
(* ------------------------------------------------------------------ *)

Lemma combine_course_again (n : CombinedCourseRecords.t) (i1 i2 : CourseInfo.t) :
  combine_course (combine_course n i1) i2 = combine_course n i2.
Proof. reflexivity. Qed.

Lemma transcript_inner_eq (course : TakenCourse.t) (infoCourses : list CourseInfo.t)
    (n : CombinedCourseRecords.t) (acc : list CombinedCourseRecords.t) :
  transcript_inner course infoCourses n acc
  = (acc ++ map (combine_course n) (matching_infos course infoCourses))%list.
Proof.
  revert n acc. induction infoCourses as [|info rest IH]; intros n acc;
    cbn [transcript_inner matching_infos filter map].
  - now rewrite app_nil_r.
  - fold (matching_infos course rest).
    destruct (String.eqb (TakenCourse.CourseCode course) (CourseInfo.CourseCode info)).
    + rewrite IH, <- app_assoc. cbn [map app].
      rewrite (map_ext _ _ (combine_course_again n info)). reflexivity.
    + apply IH.
Qed.

Lemma transcript_outer_eq (coursesTaken : list TakenCourse.t)
    (infoCourses : list CourseInfo.t) (acc : list CombinedCourseRecords.t) :
  transcript_outer coursesTaken infoCourses acc
  = (acc ++ transcript_join coursesTaken infoCourses)%list.
Proof.
  revert acc. induction coursesTaken as [|course rest IH]; intros acc;
    cbn [transcript_outer transcript_join flat_map].
  - now rewrite app_nil_r.
  - rewrite IH, transcript_inner_eq, <- app_assoc. reflexivity.
Qed.

Lemma transcript_join_app (l1 l2 : list TakenCourse.t) (infoCourses : list CourseInfo.t) :
  transcript_join (l1 ++ l2) infoCourses
  = (transcript_join l1 infoCourses ++ transcript_join l2 infoCourses)%list.
Proof. apply flat_map_app. Qed.

(** C6.  For every state, institution and student-id for which the
    three fetches of [GetStudentTranscript] succeed, with course infos
    [infoCourses] and taken courses [coursesTaken]: the operation
    succeeds, and its course list is, for each taken course in the
    order they were returned, one combined record per course info with
    an equal course code (in the order of the course infos).  So a
    taken course that matches no course info adds nothing, and the
    transcript is what it would be without that taken course; no error
    is raised for it. *)
Theorem transcript_is_the_join (ctx : Stub) (hei studentID : string)
    (infoCourses : list CourseInfo.t) (coursesTaken : list TakenCourse.t) :
  is_ok (Get_Student_StudentInfo ctx hei studentID) = true ->
  Get_Student_CourseInfos ctx hei studentID = Ok infoCourses ->
  Get_Student_TakenCourses ctx hei studentID = Ok coursesTaken ->
  exists t,
    GetStudentTranscript ctx hei studentID = Ok t
    /\ StudentTranscript.Courses t = transcript_join coursesTaken infoCourses
    /\ (forall before course after,
          coursesTaken = (before ++ course :: after)%list ->
          StudentTranscript.Courses t
          = (transcript_join before infoCourses
             ++ map (CombinedCourseRecord_of course) (matching_infos course infoCourses)
             ++ transcript_join after infoCourses)%list)
    /\ (forall before course after,
          coursesTaken = (before ++ course :: after)%list ->
          matching_infos course infoCourses = [] ->
          StudentTranscript.Courses t
          = transcript_join (before ++ after) infoCourses).
Proof.
  intros Hinfo Hinfos Htaken. unfold GetStudentTranscript.
  destruct (Get_Student_StudentInfo ctx hei studentID) as [res|e] eqn:Hres;
    [|discriminate].
  destruct (Get_Student_StudentInfo_some _ _ _ _ Hres) as [info ->].
  rewrite Hinfos, Htaken. cbn [wrap rbind].
  eexists. split; [reflexivity|]. cbn [StudentTranscript.Courses].
  rewrite transcript_outer_eq. cbn [app].
  split; [reflexivity|]. split.
  - intros before course after ->. rewrite transcript_join_app. reflexivity.
  - intros before course after -> Hnone.
    rewrite !transcript_join_app. cbn [transcript_join flat_map].
    rewrite Hnone. reflexivity.
Qed.

Lemma transcript_is_the_join_witness :
  let ctx := new_transaction ledger_comp2004 in
  List.length (ok_or_nil (Get_Student_TakenCourses ctx "Fenerbahce University" "190908809")) = 9
  /\ exists t,
       GetStudentTranscript ctx "Fenerbahce University" "190908809" = Ok t
       /\ List.length (StudentTranscript.Courses t) = 8
       /\ existsb (fun r => String.eqb (CombinedCourseRecords.CourseCode r) "COMP2004")
            (StudentTranscript.Courses t) = false.
Proof.
  intros ctx. split; [vm_compute; reflexivity|].
  destruct (transcript_is_the_join ctx "Fenerbahce University" "190908809"
              (ok_or_nil (Get_Student_CourseInfos ctx "Fenerbahce University" "190908809"))
              (ok_or_nil (Get_Student_TakenCourses ctx "Fenerbahce University" "190908809")))
    as (t & Ht & Hjoin & _).
  - vm_compute. reflexivity.
  - vm_compute. reflexivity.
  - vm_compute. reflexivity.
  - exists t. split; [exact Ht|]. rewrite Hjoin.
    split; vm_compute; reflexivity.
Defined.

(* ------------------------------------------------------------------ *)
(** ** C9: the seeded ledger *)
(* ------------------------------------------------------------------ *)

(** The digest depends on the float formatter only through the [Point]
    of a taken course. *)
Lemma StructToMD5_ext (fmt fmt' : float32 -> string) (r : Struct) :
  (forall c, r = ATakenCourse c -> fmt (TakenCourse.Point c) = fmt' (TakenCourse.Point c)) ->
  StructToMD5 fmt r = StructToMD5 fmt' r.
Proof.
  intros H. unfold StructToMD5. f_equal. rewrite !StructToString_joined. f_equal. f_equal.
  destruct r as [s|c|c]; [reflexivity | | reflexivity].
  cbn [reflect_fields map snd Sprintf_v]. now rewrite (H c eq_refl).
Qed.

Lemma InsertNewRecord_ext (fmt fmt' : float32 -> string) (r : Struct)
    (relation owner : string) (studentId : Z) :
  StructToMD5 fmt r = StructToMD5 fmt' r ->
  InsertNewRecord fmt r relation owner studentId
  = InsertNewRecord fmt' r relation owner studentId.
Proof. intros H. unfold InsertNewRecord. now rewrite H. Qed.

Lemma InitLedger_loop_ext (fmt fmt' : float32 -> string) (e1 e2 : string)
    (records : list (Struct * MetaInfo.t)) :
  Forall (fun rm => StructToMD5 fmt (fst rm) = StructToMD5 fmt' (fst rm)) records ->
  InitLedger_loop fmt e1 e2 records = InitLedger_loop fmt' e1 e2 records.
Proof.
  induction 1 as [|[r m] records Hr _ IH]; [reflexivity|].
  cbn [InitLedger_loop]. change (StructToMD5 fmt r = StructToMD5 fmt' r) in Hr.
  now rewrite Hr, IH.
Qed.

Lemma seed_points_ext (fmt : float32 -> string) :
  formats_seed_points fmt ->
  forall c, In c TakenCourses ->
    fmt (TakenCourse.Point c) = example_Sprintf_float32 (TakenCourse.Point c).
Proof.
  intros (H20 & H21 & H6 & H189 & H8 & H4) c Hin.
  cbn in Hin.
  repeat (destruct Hin as [<- | Hin]; [cbn [TakenCourse.Point]; assumption|]).
  contradiction.
Qed.

Lemma InitLedger_ext (fmt : float32 -> string) :
  formats_seed_points fmt -> InitLedger fmt = InitLedger example_Sprintf_float32.
Proof.
  intros H.
  assert (E1 : forall e1 e2,
    InitLedger_loop fmt e1 e2 (combine (map AStudentInfo Students) MetaStudents)
    = InitLedger_loop example_Sprintf_float32 e1 e2
        (combine (map AStudentInfo Students) MetaStudents)).
  { intros e1 e2. apply InitLedger_loop_ext, Forall_forall.
    intros [r m] Hin. cbn [fst]. apply StructToMD5_ext.
    intros c ->. apply in_combine_l in Hin. cbn in Hin.
    destruct Hin as [Hin|[]]. discriminate Hin. }
  assert (E2 : forall e1 e2,
    InitLedger_loop fmt e1 e2 (combine (map ATakenCourse TakenCourses) MetaTakenCourses)
    = InitLedger_loop example_Sprintf_float32 e1 e2
        (combine (map ATakenCourse TakenCourses) MetaTakenCourses)).
  { intros e1 e2. apply InitLedger_loop_ext, Forall_forall.
    intros [r m] Hin. cbn [fst]. apply StructToMD5_ext.
    intros c ->. apply in_combine_l in Hin.
    apply in_map_iff in Hin as (c' & [= <-] & Hin).
    now apply seed_points_ext. }
  assert (E3 : forall e1 e2,
    InitLedger_loop fmt e1 e2 (combine (map ACourseInfo CourseInfoS) MetaCourseInfoS)
    = InitLedger_loop example_Sprintf_float32 e1 e2
        (combine (map ACourseInfo CourseInfoS) MetaCourseInfoS)).
  { intros e1 e2. apply InitLedger_loop_ext, Forall_forall.
    intros [r m] Hin. cbn [fst]. apply StructToMD5_ext.
    intros c ->. apply in_combine_l in Hin.
    apply in_map_iff in Hin as (c' & Hc & _). discriminate Hc. }
  unfold InitLedger.
  specialize (E1 "failed to put student info to world state. "
                "failed to put meta student info to world state. ").
  specialize (E2 "failed to put course record to world state. "
                "failed to put meta student info to world state. ").
  specialize (E3 "failed to put course info record to world state. "
                "failed to put meta course info to world state. ").
  revert E1 E2 E3.
  generalize
    (InitLedger_loop fmt "failed to put student info to world state. "
       "failed to put meta student info to world state. "
       (combine (map AStudentInfo Students) MetaStudents))
    (InitLedger_loop fmt "failed to put course record to world state. "
       "failed to put meta student info to world state. "
       (combine (map ATakenCourse TakenCourses) MetaTakenCourses))
    (InitLedger_loop fmt "failed to put course info record to world state. "
       "failed to put meta course info to world state. "
       (combine (map ACourseInfo CourseInfoS) MetaCourseInfoS)).
  intros L1 L2 L3 -> -> ->. reflexivity.
Qed.

Lemma run_insert_ext (fmt fmt' : float32 -> string) (c : InsertCall) :
  StructToMD5 fmt (call_record c) = StructToMD5 fmt' (call_record c) ->
  run_insert fmt c = run_insert fmt' c.
Proof.
  intros H. destruct c; cbn [run_insert];
    unfold InsertNewRecordStudentInfo, InsertNewRecordTakenCourse,
      InsertNewRecordCourseInfo; now apply InsertNewRecord_ext.
Qed.

Lemma run_calls_ext (fmt fmt' : float32 -> string) (calls : list InsertCall)
    (w : WorldState) :
  Forall (fun c => StructToMD5 fmt (call_record c) = StructToMD5 fmt' (call_record c))
         calls ->
  run_calls fmt calls w = run_calls fmt' calls w.
Proof.
  intros H. revert w. induction H as [|c calls Hc _ IH]; intros w; [reflexivity|].
  cbn [run_calls]. rewrite (run_insert_ext fmt fmt' c Hc).
  destruct (invoke (run_insert fmt' c) w) as [r w1]. now rewrite IH.
Qed.

Lemma run_seed_calls_ext (fmt : float32 -> string) (w : WorldState) :
  formats_seed_points fmt ->
  run_calls fmt seed_calls w = run_calls example_Sprintf_float32 seed_calls w.
Proof.
  intros H. apply run_calls_ext, Forall_forall. intros c Hin.
  apply StructToMD5_ext. intros tc Htc.
  unfold seed_calls in Hin. apply in_app_or in Hin as [Hin|Hin].
  { apply in_map_iff in Hin as (s & <- & _). discriminate Htc. }
  apply in_app_or in Hin as [Hin|Hin].
  - apply in_map_iff in Hin as (c' & <- & Hin'). cbn [call_record] in Htc.
    injection Htc as <-. cbn [TakenCourse.Point].
    now apply seed_points_ext.
  - apply in_map_iff in Hin as (s & <- & _). discriminate Htc.
Qed.

(** C9.  Whenever [%v] prints the six [Point] literals as Go does:
    [InitLedger] on the empty ledger succeeds; in the resulting state
    [Get_HEI_TakenCourses("Fenerbahce University")] returns exactly 8
    records and
    [Get_Student_StudentInfo("Fenerbahce University", "190908809")]
    returns a profile with [Class] 1 and [StudentSemester] 1; the state
    holds one StudentInfo, eight TakenCourse and eight CourseInfo
    records and their seventeen meta entries; and it is the state that
    the seventeen calls of the insert operations, each of which
    succeeds, reach from the empty ledger. *)
Theorem InitLedger_seeds_the_ledger (fmt : float32 -> string) :
  formats_seed_points fmt ->
  exists w,
    invoke (InitLedger fmt) [] = (Ok tt, w)
    /\ (exists courses,
          Get_HEI_TakenCourses (new_transaction w) "Fenerbahce University" = Ok courses
          /\ List.length courses = 8)
    /\ (exists profile,
          Get_Student_StudentInfo (new_transaction w)
            "Fenerbahce University" "190908809" = Ok (Some profile)
          /\ StudentInfo.Class profile = 1%Z
          /\ StudentInfo.StudentSemester profile = 1%Z)
    /\ List.length (filter is_StudentInfo w) = 1
    /\ List.length (filter is_TakenCourse w) = 8
    /\ List.length (filter is_CourseInfo w) = 8
    /\ List.length (filter is_MetaInfo w) = 17
    /\ run_calls fmt seed_calls [] = (repeat (Ok true) 17, w).
Proof.
  intros H. exists ledger.
  rewrite (InitLedger_ext fmt H), (run_seed_calls_ext fmt [] H).
  split; [vm_compute; reflexivity|].
  split; [eexists; split; vm_compute; reflexivity|].
  split; [eexists; split; [vm_compute; reflexivity | split; reflexivity]|].
  repeat split; vm_compute; reflexivity.
Qed.

Lemma InitLedger_seeds_the_ledger_witness :
  exists w,
    invoke (InitLedger example_Sprintf_float32) [] = (Ok tt, w)
    /\ (exists courses,
          Get_HEI_TakenCourses (new_transaction w) "Fenerbahce University" = Ok courses
          /\ List.length courses = 8)
    /\ (exists profile,
          Get_Student_StudentInfo (new_transaction w)
            "Fenerbahce University" "190908809" = Ok (Some profile)
          /\ StudentInfo.Class profile = 1%Z
          /\ StudentInfo.StudentSemester profile = 1%Z)
    /\ List.length (filter is_StudentInfo w) = 1
    /\ List.length (filter is_TakenCourse w) = 8
    /\ List.length (filter is_CourseInfo w) = 8
    /\ List.length (filter is_MetaInfo w) = 17
    /\ run_calls example_Sprintf_float32 seed_calls [] = (repeat (Ok true) 17, w).
Proof.
  apply (InitLedger_seeds_the_ledger example_Sprintf_float32).
  repeat split.
Defined.

(** The seeded ledger is a state that the contract reaches. *)
Lemma ledger_reachable : reachable example_Sprintf_float32 ledger.
Proof. apply reachable_InitLedger, reachable_empty. Qed.

(** [InitLedger] does not check for existing entries: run again on the
    seeded ledger it succeeds and leaves the ledger as it is, where each
    of the seventeen insert calls is rejected. *)
Remark InitLedger_again :
  invoke (InitLedger example_Sprintf_float32) ledger = (Ok tt, ledger)
  /\ run_calls example_Sprintf_float32 seed_calls ledger
     = (repeat (Err record_exists) 17, ledger).
Proof. split; vm_compute; reflexivity. Qed.

(* ------------------------------------------------------------------ *)
(** ** C4: sensitivity of the digest *)
(* ------------------------------------------------------------------ *)

Lemma differ_in_field_split (name : string) (v1 v2 : Value)
    (l1 l2 : list (string * Value)) :
  differ_in_field name v1 v2 l1 l2 ->
  v1 <> v2
  /\ exists before after,
       l1 = (before ++ (name, v1) :: after)%list
       /\ l2 = (before ++ (name, v2) :: after)%list.
Proof.
  induction 1 as [rest Hne | field l1 l2 _ (Hne & before & after & -> & ->)].
  - split; [exact Hne|]. now exists [], rest.
  - split; [exact Hne|]. now exists (field :: before), after.
Qed.

Lemma differ_in_field_same_type (r1 r2 : Struct) (name : string) (v1 v2 : Value) :
  differ_in_field name v1 v2 (reflect_fields r1) (reflect_fields r2) ->
  same_type v1 v2.
Proof.
  intros H.
  destruct r1 as [[]|[]|[]], r2 as [[]|[]|[]]; cbn in H; walk_fields H.
Qed.

Lemma Sprintf_v_differs (fmt : float32 -> string) (v1 v2 : Value) :
  same_type v1 v2 -> v1 <> v2 ->
  (forall f1 f2, v1 = VFloat32 f1 -> v2 = VFloat32 f2 -> fmt f1 <> fmt f2) ->
  Sprintf_v fmt v1 <> Sprintf_v fmt v2.
Proof.
  destruct v1 as [a|a|a], v2 as [b|b|b]; cbn [same_type Sprintf_v];
    try contradiction; intros _ Hne Hf.
  - congruence.
  - intros H. apply strconv_Itoa_inj in H. congruence.
  - now apply Hf.
Qed.

(** The hashed strings of two field lists that differ in one field
    which is not the last one. *)
Lemma joined_differs (fmt : float32 -> string) (before after : list (string * Value))
    (name : string) (v1 v2 : Value) :
  after <> [] ->
  Sprintf_v fmt v1 <> Sprintf_v fmt v2 ->
  drop_last (strings_Join
               (map (fun field => Sprintf_v fmt (snd field))
                    (before ++ (name, v1) :: after)) ",")
  <> drop_last (strings_Join
                  (map (fun field => Sprintf_v fmt (snd field))
                       (before ++ (name, v2) :: after)) ",").
Proof.
  intros Hafter Htext.
  rewrite !map_app. cbn [map snd].
  rewrite !strings_Join_app by discriminate.
  rewrite !strings_Join_cons
    by (intros H; apply map_eq_nil in H; contradiction).
  set (A := join_prefix _ ","). set (J := strings_Join _ ",").
  assert (Hne : forall t : string, t ++ "," ++ J <> "")
    by (intros [|c t]; discriminate).
  rewrite !(drop_last_append A) by apply Hne.
  rewrite (drop_last_append (Sprintf_v fmt v1)), (drop_last_append (Sprintf_v fmt v2))
    by discriminate.
  intros H. apply append_inv_head, append_inv_tail in H. contradiction.
Qed.

Lemma collision_texts_differ : collision_1 <> collision_2.
Proof. apply String.eqb_neq. vm_compute. reflexivity. Qed.

(** C4, counterexample.  The claim: two records of one kind that differ
    in the value of one field never have the same digest.  These two
    course infos differ in their course code only, and [StructToMD5]
    gives both the digest [f993...de8c]: the two course codes are texts
    on which MD5 collides, and the fields after them are the same. *)
Lemma digest_collision :
  differ_in_one_field course_collision_1 course_collision_2
  /\ StructToMD5 example_Sprintf_float32 course_collision_1
     = StructToMD5 example_Sprintf_float32 course_collision_2
  /\ StructToMD5 example_Sprintf_float32 course_collision_1
     = "f99300f7ee0c9afbcbd1fa91b5f9de8c".
Proof.
  split; [|split; vm_compute; reflexivity].
  exists "CourseCode", (VString collision_1), (VString collision_2).
  apply differ_here. intros H. apply collision_texts_differ.
  exact (f_equal (fun v => match v with VString s => s | _ => "" end) H).
Qed.

(** The digest field is another field whose change can go unseen: its
    last byte is the byte that [result[:len(result)-1]] removes. *)
Remark last_digest_byte_is_dropped (fmt : float32 -> string) :
  StructToString fmt (ACourseInfo (CourseInfo.set_HashValue comp1001 "a"))
  = StructToString fmt (ACourseInfo (CourseInfo.set_HashValue comp1001 "b")).
Proof. reflexivity. Qed.

(** C4, as amended.  For two records of one kind that differ in the
    value of exactly one field, a field other than [HashValue]: the
    strings that [StructToString] hands to MD5 differ, provided that,
    when the field is a [float32], [%v] prints its two values
    differently (a string or integer field always prints two different
    values differently).  Their digests are then equal only if MD5
    collides on these two strings. *)
Theorem canonical_string_sensitive (fmt : float32 -> string) (r1 r2 : Struct)
    (name : string) (v1 v2 : Value) :
  differ_in_field name v1 v2 (reflect_fields r1) (reflect_fields r2) ->
  name <> "HashValue" ->
  (forall f1 f2, v1 = VFloat32 f1 -> v2 = VFloat32 f2 -> fmt f1 <> fmt f2) ->
  StructToString fmt r1 <> StructToString fmt r2.
Proof.
  intros Hdiff Hname Hfloat.
  pose proof (differ_in_field_same_type _ _ _ _ _ Hdiff) as Htype.
  apply differ_in_field_split in Hdiff as (Hne & before & after & H1 & H2).
  assert (Hafter : after <> []).
  { intros ->. rewrite reflect_fields_split in H1.
    apply app_inj_tail in H1 as [_ [= Hn _]]. congruence. }
  rewrite !StructToString_joined, H1, H2.
  apply joined_differs; [exact Hafter|].
  now apply Sprintf_v_differs.
Qed.

(** The example of the claim: the grade "BB" against "BA". *)
Lemma canonical_string_sensitive_witness :
  StructToString example_Sprintf_float32 (taken_comp2004 "BB")
  <> StructToString example_Sprintf_float32 (taken_comp2004 "BA").
Proof.
  apply (canonical_string_sensitive example_Sprintf_float32
           (taken_comp2004 "BB") (taken_comp2004 "BA")
           "Grade" (VString "BB") (VString "BA")).
  - apply differ_later, differ_later, differ_here. discriminate.
  - discriminate.
  - discriminate.
Defined.

Example grade_change_changes_digest :
  StructToMD5 example_Sprintf_float32 (taken_comp2004 "BB")
  = "5fb09b8d68832b5ee32a9fc022cb0655"
  /\ StructToMD5 example_Sprintf_float32 (taken_comp2004 "BA")
     = "8611566e4e63abd88721f358b57a7181".
Proof. split; vm_compute; reflexivity. Qed.

(* ================================================================== *)
(** * The states that the contract reaches *)
(* ================================================================== *)

Lemma In_ws_put_inv (key key' : string) (value value' : Doc) (w : WorldState) :
  In (key', value') (ws_put key value w) ->
  (key', value') = (key, value) \/ In (key', value') w.
Proof.
  induction w as [|[k v] w IH]; cbn [ws_put].
  - intros [H|[]]. now left.
  - destruct (String.compare key k).
    + intros [H|H]; [now left | right; now right].
    + intros [H|H]; [now left | now right].
    + intros [H|H]; [right; now left|].
      destruct (IH H) as [E|E]; [now left | right; now right].
Qed.













(* ------------------------------------------------------------------ *)
(** ** C8: the last digest wins *)
(* ------------------------------------------------------------------ *)



(* ================================================================== *)
(** * Further properties of the contract *)
(* ================================================================== *)

(* ------------------------------------------------------------------ *)
(** ** Composite keys and decoding *)
(* ------------------------------------------------------------------ *)



Lemma has_min_or_max_rune_NUL (bs : list N) :
  has_min_or_max_rune bs = false -> Forall (fun b => b <> 0%N) bs.
Proof.
  induction bs as [|b bs IH]; [constructor|].
  cbn [has_min_or_max_rune]. intros H.
  apply orb_false_iff in H as [H Hrest]. apply orb_false_iff in H as [Hb _].
  constructor; [now apply N.eqb_neq | auto].
Qed.

Lemma validate_NUL_free (s : string) :
  validateCompositeKeyAttribute s = Ok tt -> NUL_free s.
Proof.
  unfold validateCompositeKeyAttribute, NUL_free.
  destruct (negb (utf8_Valid (bytes_of_string s))); [discriminate|].
  destruct (has_min_or_max_rune (bytes_of_string s)) eqn:H; [discriminate|].
  intros _. now apply has_min_or_max_rune_NUL.
Qed.



(** What [CreateCompositeKey] answers for the three attributes of a
    meta entry. *)
Lemma CreateCompositeKey_ok (owner studentID digest ck : string) :
  CreateCompositeKey "heiID" [owner; studentID; digest] = Ok ck ->
  ck = composite_key owner studentID digest
  /\ validateCompositeKeyAttribute owner = Ok tt
  /\ validateCompositeKeyAttribute studentID = Ok tt
  /\ validateCompositeKeyAttribute digest = Ok tt.
Proof.
  unfold CreateCompositeKey.
  replace (validateCompositeKeyAttribute "heiID") with (Ok tt) by reflexivity.
  cbn [rbind CreateCompositeKey_attributes].
  destruct (validateCompositeKeyAttribute owner) as [[]|e]; cbn [rbind]; [|discriminate].
  destruct (validateCompositeKeyAttribute studentID) as [[]|e]; cbn [rbind]; [|discriminate].
  destruct (validateCompositeKeyAttribute digest) as [[]|e]; cbn [rbind]; [|discriminate].
  intros [= <-]. unfold composite_key. now rewrite !append_assoc.
Qed.




(* ------------------------------------------------------------------ *)
(** ** [InitLedger] as a sequence of writes *)
(* ------------------------------------------------------------------ *)

Lemma json_Marshal_call_data (fmt : float32 -> string) (c : InsertCall) :
  is_ok (json_Marshal (call_data fmt c))
  = match c with
    | CallTakenCourse _ _ _ _ point _ => float32_finite point
    | _ => true
    end.
Proof.
  destruct c; unfold call_data; cbn [call_record struct_set_HashValue doc_of_struct];
    unfold json_Marshal; [reflexivity | | reflexivity].
  cbn [TakenCourse.set_HashValue TakenCourse.Point].
  destruct (float32_finite point); reflexivity.
Qed.

Lemma InitLedger_loop_runs (fmt : float32 -> string) (e1 e2 null : string)
    (calls : list InsertCall) (ctx : Stub) :
  Forall (fun c => validateCompositeKeyAttribute (call_owner c) = Ok tt
                   /\ is_ok (json_Marshal (call_data fmt c)) = true) calls ->
  InitLedger_loop fmt e1 e2 (map (seed_of_call null) calls) ctx
  = (Ok tt, mkStub (world ctx) (writes ctx ++ flat_map (call_writes fmt) calls)).
Proof.
  intros H. revert ctx. induction H as [|c calls [Hkey Hjson] _ IH]; intros ctx.
  - cbn [map InitLedger_loop flat_map]. rewrite app_nil_r. now destruct ctx.
  - cbn [map InitLedger_loop seed_of_call].
    rewrite StructToMD5_call_record.
    fold (call_data fmt c).
    cbv zeta. unfold tx_bind at 1. unfold tx_wrap at 1. unfold tx_lift at 1.
    rewrite (json_Marshal_is_ok _ Hjson). cbn [wrap].
    unfold tx_bind at 1. unfold tx_wrap at 1. unfold tx_PutState at 1, PutState.
    rewrite struct_HashValue_set.
    replace (String.eqb (call_digest fmt c) "") with false
      by (symmetry; apply String.eqb_neq, StringToMD5_nonempty).
    cbn [wrap]. unfold tx_bind at 1. unfold tx_wrap at 1. unfold tx_lift at 1.
    cbn [MetaInfo.set_HashValue MetaInfo.Owner MetaInfo.StudentID MetaInfo.HashValue
         MetaInfo.Relation].
    rewrite CreateCompositeKey_heiID
      by (apply plain_call_studentID || apply plain_StringToMD5).
    rewrite Hkey. cbn [rbind wrap].
    unfold tx_bind at 1. unfold tx_wrap at 1. unfold tx_lift at 1.
    cbn [json_Marshal wrap]. unfold tx_bind at 1. unfold tx_wrap at 1.
    unfold tx_PutState at 1, PutState. rewrite composite_key_nonempty.
    cbn [wrap writes world]. rewrite IH. cbn [world writes flat_map call_writes].
    rewrite <- !app_assoc. reflexivity.
Qed.

Lemma seed_calls_accepted (fmt : float32 -> string) :
  Forall (fun c => validateCompositeKeyAttribute (call_owner c) = Ok tt
                   /\ is_ok (json_Marshal (call_data fmt c)) = true) seed_calls.
Proof.
  unfold seed_calls, Students, TakenCourses, CourseInfoS. cbn [map app].
  repeat (apply Forall_cons;
          [split; [vm_compute; reflexivity
                  | rewrite json_Marshal_call_data; vm_compute; reflexivity]|]).
  apply Forall_nil.
Qed.

Lemma commit_call_writes (fmt : float32 -> string) (calls : list InsertCall)
    (w : WorldState) :
  commit (mkStub w (flat_map (call_writes fmt) calls))
  = fold_left (fun w c => state_after_insert fmt c w) calls w.
Proof.
  unfold commit. cbn [world writes]. revert w.
  induction calls as [|c calls IH]; intros w; [reflexivity|].
  cbn [flat_map call_writes app fold_left fst snd]. apply IH.
Qed.

(** [InitLedger] issues the writes of the seventeen calls, whatever the
    state holds. *)
Lemma InitLedger_runs (fmt : float32 -> string) (ctx : Stub) :
  InitLedger fmt ctx
  = (Ok tt, mkStub (world ctx) (writes ctx ++ flat_map (call_writes fmt) seed_calls)).
Proof.
  pose proof (seed_calls_accepted fmt) as H. unfold seed_calls in H.
  apply Forall_app in H as [H1 H]. apply Forall_app in H as [H2 H3].
  unfold InitLedger, seed_calls.
  match type of H1 with Forall _ ?l =>
    change (combine (map AStudentInfo Students) MetaStudents)
      with (map (seed_of_call "NULL") l) end.
  match type of H2 with Forall _ ?l =>
    change (combine (map ATakenCourse TakenCourses) MetaTakenCourses)
      with (map (seed_of_call "NULL") l) end.
  match type of H3 with Forall _ ?l =>
    change (combine (map ACourseInfo CourseInfoS) MetaCourseInfoS)
      with (map (seed_of_call "NULL") l) end.
  unfold tx_bind.
  rewrite (InitLedger_loop_runs fmt _ _ "NULL" _ ctx H1).
  rewrite (InitLedger_loop_runs fmt _ _ "NULL" _ _ H2).
  rewrite (InitLedger_loop_runs fmt _ _ "NULL" _ _ H3).
  cbn [world writes]. rewrite !flat_map_app, <- !app_assoc. reflexivity.
Qed.

Lemma invoke_InitLedger (fmt : float32 -> string) (w : WorldState) :
  invoke (InitLedger fmt) w
  = (Ok tt, fold_left (fun w c => state_after_insert fmt c w) seed_calls w).
Proof.
  unfold invoke. rewrite InitLedger_runs. cbn [new_transaction world writes app].
  now rewrite commit_call_writes.
Qed.

(* ------------------------------------------------------------------ *)
(** ** How the entries of a reachable state are addressed *)
(* ------------------------------------------------------------------ *)








(** An insert leaves the state as it was, or adds the pair of the call,
    whose owner a composite key accepts. *)
Lemma invoke_insert_state (fmt : float32 -> string) (c : InsertCall) (w : WorldState) :
  snd (invoke (run_insert fmt c) w) = w
  \/ (snd (invoke (run_insert fmt c) w) = state_after_insert fmt c w
      /\ validateCompositeKeyAttribute (call_owner c) = Ok tt
      /\ ~ meta_entry_exists w (call_owner c) (call_studentID c) (call_digest fmt c)).
Proof.
  destruct (invoke (run_insert fmt c) w) as [[b|e] w'] eqn:H.
  - right. apply invoke_insert_ok in H as (_ & -> & Hnew & Hkey & _). auto.
  - left. unfold invoke in H.
    destruct (run_insert fmt c (new_transaction w)) as [[b|e'] ctx];
      [discriminate H | now injection H as _ <-].
Qed.


(* ------------------------------------------------------------------ *)
(** ** The order of the keys *)
(* ------------------------------------------------------------------ *)

Lemma compare_Lt_trans (a b c : string) :
  String.compare a b = Lt -> String.compare b c = Lt -> String.compare a c = Lt.
Proof.
  intros H1 H2. apply OrderedTypeEx.String_as_OT.cmp_lt.
  apply OrderedTypeEx.String_as_OT.cmp_lt in H1, H2.
  eapply OrderedTypeEx.String_as_OT.lt_trans; eassumption.
Qed.

Lemma compare_refl (a : string) : String.compare a a = Eq.
Proof. now apply OrderedTypeEx.String_as_OT.cmp_eq. Qed.

Lemma compare_Gt_Lt (a b : string) :
  String.compare a b = Gt -> String.compare b a = Lt.
Proof. intros H. rewrite String.compare_antisym, H. reflexivity. Qed.

Lemma ws_put_sorted (key : string) (value : Doc) (w : WorldState) :
  sorted_keys w -> sorted_keys (ws_put key value w).
Proof.
  unfold sorted_keys. induction 1 as [|[k v] w Hs IH Hall]; cbn [ws_put].
  - constructor; constructor.
  - destruct (String.compare key k) eqn:Hc.
    + apply String.compare_eq_iff in Hc. subst k. constructor; assumption.
    + constructor; [constructor; assumption|].
      constructor; [exact Hc|]. revert Hall. apply Forall_impl.
      intros [k' v'] Hk. unfold key_lt in *. cbn [fst] in *.
      eapply compare_Lt_trans; eassumption.
    + constructor; [exact IH|]. apply Forall_forall. intros [k' v'] Hin.
      apply In_ws_put_inv in Hin as [E|Hin].
      * injection E as -> ->. now apply compare_Gt_Lt.
      * rewrite Forall_forall in Hall. now apply Hall.
Qed.

Lemma sorted_after_insert (fmt : float32 -> string) (c : InsertCall) (w : WorldState) :
  sorted_keys w -> sorted_keys (state_after_insert fmt c w).
Proof. intros H. now apply ws_put_sorted, ws_put_sorted. Qed.

Lemma sorted_after_calls (fmt : float32 -> string) (calls : list InsertCall)
    (w : WorldState) :
  sorted_keys w ->
  sorted_keys (fold_left (fun w c => state_after_insert fmt c w) calls w).
Proof.
  revert w. induction calls as [|c calls IH]; intros w Hw; [exact Hw|].
  cbn [fold_left]. now apply IH, sorted_after_insert.
Qed.

Lemma reachable_sorted (fmt : float32 -> string) (w : WorldState) :
  reachable fmt w -> sorted_keys w.
Proof.
  induction 1 as [|w _ IH|w c _ IH].
  - constructor.
  - rewrite invoke_InitLedger. now apply sorted_after_calls.
  - destruct (invoke_insert_state fmt c w) as [-> | (-> & _)];
      [exact IH | now apply sorted_after_insert].
Qed.

Lemma ws_get_above (key : string) (w : WorldState) :
  Forall (fun kv => String.compare key (fst kv) = Lt) w -> ws_get key w = None.
Proof.
  induction 1 as [|[k v] w Hk _ IH]; [reflexivity|]. cbn [ws_get fst] in *.
  destruct (String.eqb_spec key k) as [->|_]; [|exact IH].
  rewrite compare_refl in Hk. discriminate.
Qed.


(** Two states with ascending keys that read alike are the same. *)
Lemma sorted_ext (w1 w2 : WorldState) :
  sorted_keys w1 -> sorted_keys w2 ->
  (forall key, ws_get key w1 = ws_get key w2) -> w1 = w2.
Proof.
  unfold sorted_keys. intros H1. revert w2.
  induction H1 as [|[k1 v1] w1 Hs1 IH Hall1]; intros w2 H2 Hext.
  - destruct w2 as [|[k2 v2] w2]; [reflexivity|].
    specialize (Hext k2). cbn [ws_get] in Hext. rewrite String.eqb_refl in Hext.
    discriminate.
  - destruct H2 as [|[k2 v2] w2 Hs2 Hall2].
    { specialize (Hext k1). cbn [ws_get] in Hext. rewrite String.eqb_refl in Hext.
      discriminate. }
    assert (N1 : ws_get k1 w1 = None) by (apply ws_get_above; exact Hall1).
    assert (N2 : ws_get k2 w2 = None) by (apply ws_get_above; exact Hall2).
    assert (Ek : k1 = k2).
    { destruct (String.compare k1 k2) eqn:Hc.
      - now apply String.compare_eq_iff.
      - specialize (Hext k1). cbn [ws_get] in Hext. rewrite String.eqb_refl in Hext.
        destruct (String.eqb_spec k1 k2) as [E|_]; [exact E|].
        rewrite ws_get_above in Hext; [discriminate|].
        revert Hall2. apply Forall_impl. intros [k v] Hk. unfold key_lt in Hk.
        cbn [fst] in *. eapply compare_Lt_trans; eassumption.
      - apply compare_Gt_Lt in Hc.
        specialize (Hext k2). cbn [ws_get] in Hext. rewrite String.eqb_refl in Hext.
        destruct (String.eqb_spec k2 k1) as [E|_]; [now symmetry|].
        rewrite ws_get_above in Hext; [discriminate|].
        revert Hall1. apply Forall_impl. intros [k v] Hk. unfold key_lt in Hk.
        cbn [fst] in *. eapply compare_Lt_trans; eassumption. }
    subst k2.
    assert (Ev : v1 = v2).
    { specialize (Hext k1). cbn [ws_get] in Hext. rewrite String.eqb_refl in Hext.
      now injection Hext. }
    subst v2. f_equal. apply IH; [exact Hs2|].
    intros key. specialize (Hext key). cbn [ws_get] in Hext.
    destruct (String.eqb_spec key k1) as [E|_]; [|exact Hext].
    rewrite E. congruence.
Qed.

Lemma ws_get_commit (key : string) (ps : list (string * Doc)) (w : WorldState) :
  ws_get key (fold_left (fun w kv => ws_put (fst kv) (snd kv) w) ps w)
  = match last_write key ps with
    | Some v => Some v
    | None => ws_get key w
    end.
Proof.
  revert w. induction ps as [|[k v] ps IH]; intros w; [reflexivity|].
  cbn [fold_left last_write fst snd]. rewrite IH.
  destruct (last_write key ps); [reflexivity|].
  destruct (String.eqb_spec key k) as [->|Hne].
  - apply ws_get_put_same.
  - apply ws_get_put_other. congruence.
Qed.

Lemma commit_sorted (ps : list (string * Doc)) (w : WorldState) :
  sorted_keys w ->
  sorted_keys (fold_left (fun w kv => ws_put (fst kv) (snd kv) w) ps w).
Proof.
  revert w. induction ps as [|[k v] ps IH]; intros w Hw; [exact Hw|].
  cbn [fold_left]. now apply IH, ws_put_sorted.
Qed.

(** Committing a write set a second time changes nothing. *)
Lemma commit_twice (ps : list (string * Doc)) (w : WorldState) :
  sorted_keys w ->
  commit (mkStub (commit (mkStub w ps)) ps) = commit (mkStub w ps).
Proof.
  intros Hw. unfold commit. cbn [world writes].
  apply sorted_ext; [now apply commit_sorted, commit_sorted | now apply commit_sorted |].
  intros key. rewrite !ws_get_commit. now destruct (last_write key ps).
Qed.

(* ------------------------------------------------------------------ *)
(** ** Selectors, rows and fetch loops *)
(* ------------------------------------------------------------------ *)








Lemma fetch_all_first_error {A K : Type} (fetch : K -> result A)
    (before after : list K) (k : K) (e : string) (acc : list A) :
  (forall k', In k' before -> is_ok (fetch k') = true) ->
  fetch k = Err e ->
  fetch_all fetch (before ++ k :: after)%list acc = Err e.
Proof.
  revert acc. induction before as [|k0 before IH]; intros acc Hall Hk;
    cbn [app fetch_all].
  - now rewrite Hk.
  - pose proof (Hall k0 (or_introl eq_refl)) as H0.
    destruct (fetch k0) as [a|e0]; [|discriminate]. cbn [rbind].
    apply IH; [|exact Hk]. intros k' Hk'. apply Hall. now right.
Qed.



(** Dereferencing a digest: the three outcomes. *)
Lemma Get_StudentInfo_ByHashValue_eq (ctx : Stub) (h : string) :
  Get_StudentInfo_ByHashValue ctx h
  = match ws_get h (world ctx) with
    | None => Err ("there is not a record with the given hash value: " ++ h)
    | Some data => wrap "failed to fetch json data to struct : "
                     (json_Unmarshal_StudentInfo data)
    end.
Proof. reflexivity. Qed.

Lemma Get_TakenCourse_ByHashValue_eq (ctx : Stub) (h : string) :
  Get_TakenCourse_ByHashValue ctx h
  = match ws_get h (world ctx) with
    | None => Err ("there is not a record with the given hash value: " ++ h)
    | Some data => wrap "failed to fetch json data to struct : "
                     (json_Unmarshal_TakenCourse data)
    end.
Proof. reflexivity. Qed.

Lemma Get_CourseInfo_ByHashValue_eq (ctx : Stub) (h : string) :
  Get_CourseInfo_ByHashValue ctx h
  = match ws_get h (world ctx) with
    | None => Err ("there is not a record with the given hash value: " ++ h)
    | Some data => wrap "failed to fetch json data to struct : "
                     (json_Unmarshal_CourseInfo data)
    end.
Proof. reflexivity. Qed.

(* ------------------------------------------------------------------ *)
(** ** Insert, then read *)
(* ------------------------------------------------------------------ *)










(** The five listings as a query for digests followed by a fetch loop. *)
Lemma Get_Student_TakenCourses_eq (ctx : Stub) (hei studentID : string) :
  Get_Student_TakenCourses ctx hei studentID
  = rbind (wrap read_error (Get_Student_HashValues "TakenCourse" ctx hei studentID))
      (fun hs => fetch_all
                   (fun h => wrap fetch_error (Get_TakenCourse_ByHashValue ctx h)) hs []).
Proof.
  unfold Get_Student_TakenCourses, Get_Student_TakenCourses_HashValues. fold read_error.
  destruct (wrap read_error _); cbn [rbind];
    [apply Get_Student_TakenCourses_loop_eq | reflexivity].
Qed.

Lemma Get_Student_CourseInfos_eq (ctx : Stub) (hei studentID : string) :
  Get_Student_CourseInfos ctx hei studentID
  = rbind (wrap read_error (Get_Student_HashValues "CourseInfo" ctx hei studentID))
      (fun hs => fetch_all
                   (fun h => wrap fetch_error (Get_CourseInfo_ByHashValue ctx h)) hs []).
Proof.
  unfold Get_Student_CourseInfos, Get_Student_CourseInfos_HashValues. fold read_error.
  destruct (wrap read_error _); cbn [rbind];
    [apply Get_Student_CourseInfos_loop_eq | reflexivity].
Qed.







(* ------------------------------------------------------------------ *)
(** ** Failures, duplicates and the meta index *)
(* ------------------------------------------------------------------ *)



(** X4.  The separator is not escaped: a comma inside a text field moves
    the boundary between two fields without changing the string that is
    hashed.  For all texts [a], [b] and [c]: the course info with code
    [a,b] and name [c] and the course info with code [a] and name [b,c],
    their other fields equal, have the same digest; so have two taken
    courses that differ in this way in code and grade, and two student
    infos that differ in this way in faculty and department. *)
Theorem separator_is_not_escaped (fmt : float32 -> string) (a b c : string) :
  (forall (courseType : string) (ects credit : Z) (h : string),
      StructToMD5 fmt
        (ACourseInfo (CourseInfo.mk (a ++ "," ++ b) c courseType ects credit h))
      = StructToMD5 fmt
          (ACourseInfo (CourseInfo.mk a (b ++ "," ++ c) courseType ects credit h)))
  /\ (forall (studentId : Z) (point : float32) (takenSemester : Z) (h : string),
         StructToMD5 fmt
           (ATakenCourse (TakenCourse.mk studentId (a ++ "," ++ b) c point takenSemester h))
         = StructToMD5 fmt
             (ATakenCourse (TakenCourse.mk studentId a (b ++ "," ++ c) point takenSemester h)))
  /\ (forall (department : string) (studentId : Z)
             (surname name nationalid registrationdate registrationtype programtype : string)
             (class semester : Z) (h : string),
         StructToMD5 fmt
           (AStudentInfo (StudentInfo.mk (a ++ "," ++ b) c studentId surname name
                            nationalid registrationdate registrationtype programtype
                            class semester h))
         = StructToMD5 fmt
             (AStudentInfo (StudentInfo.mk a (b ++ "," ++ c) studentId surname name
                              nationalid registrationdate registrationtype programtype
                              class semester h))).
Proof.
  repeat split; intros; unfold StructToMD5; f_equal; rewrite !StructToString_joined;
    f_equal; cbn -[strconv_Itoa append]; rewrite !append_assoc; reflexivity.
Qed.









(* ------------------------------------------------------------------ *)
(** ** What an insert changes *)
(* ------------------------------------------------------------------ *)

Lemma call_owner_NUL_free (c : InsertCall) :
  validateCompositeKeyAttribute (call_owner c) = Ok tt -> NUL_free (call_owner c).
Proof. apply validate_NUL_free. Qed.
















Lemma selected_rows_meta (ctx : Stub) (hei : string) (sel : Selector)
    (rows : list (string * Doc)) :
  incl rows (selected ctx (("owner", hei) :: sel)) ->
  Forall (fun kv => exists m, snd kv = DMetaInfo m) rows.
Proof.
  intros H. apply Forall_forall. intros kv Hin. apply H in Hin.
  apply filter_In in Hin as [_ Hm]. now apply selector_owner_meta in Hm.
Qed.



(* ------------------------------------------------------------------ *)
(** ** [InitLedger] on any ledger, and the invariant *)
(* ------------------------------------------------------------------ *)

(** X12.  [InitLedger] reads nothing.  On every committed state, and
    however floats are printed, it succeeds with the same 34 writes, a
    data record and a meta entry for each of the 17 seed records in
    order; the state that it commits is the given state after the two
    writes of each of the 17 corresponding insert calls, made without
    the existence check. *)
Theorem InitLedger_on_any_ledger (fmt : float32 -> string) (w : WorldState) :
  InitLedger fmt (new_transaction w)
  = (Ok tt, mkStub w (flat_map (call_writes fmt) seed_calls))
  /\ List.length (flat_map (call_writes fmt) seed_calls) = 34
  /\ invoke (InitLedger fmt) w
     = (Ok tt, fold_left (fun w c => state_after_insert fmt c w) seed_calls w).
Proof.
  split; [|split].
  - now rewrite InitLedger_runs.
  - reflexivity.
  - apply invoke_InitLedger.
Qed.

(** X13.  In a state that the contract reaches, [InitLedger] run a
    second time, right after the first, succeeds and changes
    nothing. *)
Theorem InitLedger_twice (fmt : float32 -> string) (w : WorldState) :
  reachable fmt w ->
  invoke (InitLedger fmt) (snd (invoke (InitLedger fmt) w))
  = (Ok tt, snd (invoke (InitLedger fmt) w)).
Proof.
  intros Hw. apply reachable_sorted in Hw.
  assert (E : forall w0, invoke (InitLedger fmt) w0
                         = (Ok tt, commit (mkStub w0 (flat_map (call_writes fmt) seed_calls)))).
  { intros w0. unfold invoke. now rewrite InitLedger_runs. }
  rewrite !E. cbn [snd]. now rewrite commit_twice.
Qed.

Lemma InitLedger_twice_witness :
  invoke (InitLedger example_Sprintf_float32) ledger = (Ok tt, ledger).
Proof.
  exact (InitLedger_twice example_Sprintf_float32 [] (reachable_empty _)).
Defined.




(* ------------------------------------------------------------------ *)
(** ** The listings on reachable states *)
(* ------------------------------------------------------------------ *)





(* ------------------------------------------------------------------ *)
(** ** Missing records and records of another kind *)
(* ------------------------------------------------------------------ *)

Lemma Get_Student_StudentInfo_loop_first_error (ctx : Stub) (before after : list string)
    (h e : string) (acc : option StudentInfo.t) :
  (forall h', In h' before -> is_ok (Get_StudentInfo_ByHashValue ctx h') = true) ->
  Get_StudentInfo_ByHashValue ctx h = Err e ->
  Get_Student_StudentInfo_loop ctx (before ++ h :: after)%list acc
  = Err (fetch_error ++ e).
Proof.
  revert acc. induction before as [|h0 before IH]; intros acc Hall Hh;
    cbn [app Get_Student_StudentInfo_loop].
  - now rewrite Hh.
  - pose proof (Hall h0 (or_introl eq_refl)) as H0.
    destruct (Get_StudentInfo_ByHashValue ctx h0) as [a|e0]; [|discriminate].
    cbn [wrap rbind]. apply IH; [|exact Hh]. intros h' Hh'. apply Hall. now right.
Qed.

(** X16.  All or nothing.  When a digest listed for a student has no
    record in the state, and the digests listed before it dereference,
    [Get_Student_StudentInfo], [Get_Student_CourseInfos] and
    [Get_Student_TakenCourses] return none of the records fetched so
    far: each fails with
    "error during fetch taken course record by hash value: there is not a record with the given hash value: "
    followed by the digest (the same text for the three kinds); and
    [GetStudentTranscript], its profile and course infos fetched, fails
    with that error behind its own prefix. *)
Theorem listing_fails_at_first_missing_record (ctx : Stub) (hei studentID : string)
    (before after : list string) (h : string) :
  ws_get h (world ctx) = None ->
  (Get_Student_StudentInfo_HashValues ctx hei studentID = Ok (before ++ h :: after)%list ->
   (forall h', In h' before -> is_ok (Get_StudentInfo_ByHashValue ctx h') = true) ->
   Get_Student_StudentInfo ctx hei studentID = Err (fetch_error ++ no_such_record h))
  /\ (Get_Student_CourseInfos_HashValues ctx hei studentID = Ok (before ++ h :: after)%list ->
      (forall h', In h' before -> is_ok (Get_CourseInfo_ByHashValue ctx h') = true) ->
      Get_Student_CourseInfos ctx hei studentID = Err (fetch_error ++ no_such_record h))
  /\ (Get_Student_TakenCourses_HashValues ctx hei studentID = Ok (before ++ h :: after)%list ->
      (forall h', In h' before -> is_ok (Get_TakenCourse_ByHashValue ctx h') = true) ->
      Get_Student_TakenCourses ctx hei studentID = Err (fetch_error ++ no_such_record h))
  /\ (forall t,
        Get_Student_StudentInfo ctx hei studentID = Ok t ->
        is_ok (Get_Student_CourseInfos ctx hei studentID) = true ->
        Get_Student_TakenCourses_HashValues ctx hei studentID
        = Ok (before ++ h :: after)%list ->
        (forall h', In h' before -> is_ok (Get_TakenCourse_ByHashValue ctx h') = true) ->
        GetStudentTranscript ctx hei studentID
        = Err (transcript_error ++ fetch_error ++ no_such_record h)).
Proof.
  intros Hnone.
  assert (E1 : Get_StudentInfo_ByHashValue ctx h = Err (no_such_record h))
    by (rewrite Get_StudentInfo_ByHashValue_eq, Hnone; reflexivity).
  assert (E2 : Get_CourseInfo_ByHashValue ctx h = Err (no_such_record h))
    by (rewrite Get_CourseInfo_ByHashValue_eq, Hnone; reflexivity).
  assert (E3 : Get_TakenCourse_ByHashValue ctx h = Err (no_such_record h))
    by (rewrite Get_TakenCourse_ByHashValue_eq, Hnone; reflexivity).
  assert (Htc : Get_Student_TakenCourses_HashValues ctx hei studentID
                = Ok (before ++ h :: after)%list ->
                (forall h', In h' before ->
                   is_ok (Get_TakenCourse_ByHashValue ctx h') = true) ->
                Get_Student_TakenCourses ctx hei studentID
                = Err (fetch_error ++ no_such_record h)).
  { intros Hhs Hall. rewrite Get_Student_TakenCourses_eq.
    unfold Get_Student_TakenCourses_HashValues in Hhs. rewrite Hhs. cbn [wrap rbind].
    apply fetch_all_first_error.
    - intros h' Hh'. rewrite wrap_is_ok. now apply Hall.
    - now rewrite E3. }
  split; [|split; [|split; [exact Htc|]]].
  - intros Hhs Hall. unfold Get_Student_StudentInfo. rewrite Hhs. cbn [wrap rbind].
    now apply Get_Student_StudentInfo_loop_first_error.
  - intros Hhs Hall. rewrite Get_Student_CourseInfos_eq.
    unfold Get_Student_CourseInfos_HashValues in Hhs. rewrite Hhs. cbn [wrap rbind].
    apply fetch_all_first_error.
    + intros h' Hh'. rewrite wrap_is_ok. now apply Hall.
    + now rewrite E2.
  - intros t Ht Hci Hhs Hall. unfold GetStudentTranscript.
    rewrite Ht, (Htc Hhs Hall).
    destruct (Get_Student_CourseInfos ctx hei studentID); [reflexivity | discriminate Hci].
Qed.

Lemma listing_fails_at_first_missing_record_witness :
  Get_Student_TakenCourses (new_transaction dangling)
    "Fenerbahce University" "190908809"
  = Err "error during fetch taken course record by hash value: there is not a record with the given hash value: 5fb09b8d68832b5ee32a9fc022cb0655".
Proof.
  refine (proj1 (proj2 (proj2
            (listing_fails_at_first_missing_record (new_transaction dangling)
               "Fenerbahce University" "190908809" [] []
               "5fb09b8d68832b5ee32a9fc022cb0655" _))) _ _).
  - vm_compute. reflexivity.
  - vm_compute. reflexivity.
  - intros h' [].
Defined.

(** X17.  The [Get_..._ByHashValue] functions do not check the kind of
    the record that they read.  A data record of another kind is
    decoded without error into the fields whose JSON names the two
    kinds share ([course_code], [student_id], [hash_value]), the other
    fields zero or empty.  A meta entry read as a course info gives a
    record with the digest only; read as a taken course or as a student
    info it is an error, its [student_id] being a string. *)
Theorem ByHashValue_does_not_check_the_kind (ctx : Stub) (h : string) :
  (forall c, ws_get h (world ctx) = Some (DTakenCourse c) ->
     Get_CourseInfo_ByHashValue ctx h
     = Ok (CourseInfo.mk (TakenCourse.CourseCode c) "" "" 0 0 (TakenCourse.HashValue c))
     /\ Get_StudentInfo_ByHashValue ctx h
        = Ok (StudentInfo.mk "" "" (TakenCourse.StudentID c) "" "" "" "" "" "" 0 0
                (TakenCourse.HashValue c)))
  /\ (forall c, ws_get h (world ctx) = Some (DCourseInfo c) ->
        Get_TakenCourse_ByHashValue ctx h
        = Ok (TakenCourse.mk 0 (CourseInfo.CourseCode c) "" 0 0 (CourseInfo.HashValue c))
        /\ Get_StudentInfo_ByHashValue ctx h
           = Ok (StudentInfo.mk "" "" 0 "" "" "" "" "" "" 0 0 (CourseInfo.HashValue c)))
  /\ (forall s, ws_get h (world ctx) = Some (DStudentInfo s) ->
        Get_TakenCourse_ByHashValue ctx h
        = Ok (TakenCourse.mk (StudentInfo.StudentID s) "" "" 0 0 (StudentInfo.HashValue s))
        /\ Get_CourseInfo_ByHashValue ctx h
           = Ok (CourseInfo.mk "" "" "" 0 0 (StudentInfo.HashValue s)))
  /\ (forall m, ws_get h (world ctx) = Some (DMetaInfo m) ->
        Get_CourseInfo_ByHashValue ctx h
        = Ok (CourseInfo.mk "" "" "" 0 0 (MetaInfo.HashValue m))
        /\ Get_TakenCourse_ByHashValue ctx h
           = Err "failed to fetch json data to struct : json: cannot unmarshal string into Go struct field TakenCourse.student_id of type int"
        /\ Get_StudentInfo_ByHashValue ctx h
           = Err "failed to fetch json data to struct : json: cannot unmarshal string into Go struct field StudentInfo.student_id of type int").
Proof.
  split; [|split; [|split]]; intros x Hget;
    rewrite ?Get_CourseInfo_ByHashValue_eq, ?Get_TakenCourse_ByHashValue_eq,
      ?Get_StudentInfo_ByHashValue_eq, Hget; destruct x; repeat split; reflexivity.
Qed.

Lemma ByHashValue_does_not_check_the_kind_witness :
  Get_CourseInfo_ByHashValue (new_transaction ledger) "48c4c683034af0c0a03fbda1d9a1f7cd"
  = Ok (CourseInfo.mk "COMP1001" "" "" 0 0 "48c4c683034af0c0a03fbda1d9a1f7cd")
  /\ Get_StudentInfo_ByHashValue (new_transaction ledger)
       "48c4c683034af0c0a03fbda1d9a1f7cd"
     = Ok (StudentInfo.mk "" "" 190908809 "" "" "" "" "" "" 0 0
             "48c4c683034af0c0a03fbda1d9a1f7cd").
Proof.
  refine (proj1 (ByHashValue_does_not_check_the_kind (new_transaction ledger)
                   "48c4c683034af0c0a03fbda1d9a1f7cd") seeded_taken_comp1001 _).
  vm_compute. reflexivity.
Defined.

(* ------------------------------------------------------------------ *)
(** ** The shape of a digest *)
(* ------------------------------------------------------------------ *)

Lemma hexdigit_in_table (n : N) : In (hexdigit n) hextable.
Proof.
  unfold hexdigit.
  destruct (nth_in_or_default (N.to_nat n) hextable "0"%char) as [H | ->];
    [exact H | now left].
Qed.

Lemma hex_EncodeToString_digits (src : list N) :
  Forall (fun ch => In ch hextable) (list_ascii_of_string (hex_EncodeToString src)).
Proof.
  induction src as [|b src IH]; [constructor|].
  cbn [hex_EncodeToString list_ascii_of_string].
  repeat (constructor; [apply hexdigit_in_table|]). exact IH.
Qed.

(** X18.  [StringToMD5], and so [StructToMD5], always returns 32
    characters out of [0123456789abcdef]; a digest is therefore never
    the composite key of a meta entry. *)
Theorem digest_is_32_hex_characters (fmt : float32 -> string) :
  (forall value,
      String.length (StringToMD5 value) = 32
      /\ Forall (fun ch => In ch (list_ascii_of_string "0123456789abcdef"))
           (list_ascii_of_string (StringToMD5 value)))
  /\ (forall r,
         String.length (StructToMD5 fmt r) = 32
         /\ Forall (fun ch => In ch (list_ascii_of_string "0123456789abcdef"))
              (list_ascii_of_string (StructToMD5 fmt r)))
  /\ (forall r owner studentID digest,
         StructToMD5 fmt r <> composite_key owner studentID digest).
Proof.
  assert (H : forall value,
             String.length (StringToMD5 value) = 32
             /\ Forall (fun ch => In ch (list_ascii_of_string "0123456789abcdef"))
                  (list_ascii_of_string (StringToMD5 value))).
  { intros value. split; [apply length_StringToMD5|].
    unfold StringToMD5. apply hex_EncodeToString_digits. }
  split; [exact H|]. split.
  - intros r. apply H.
  - intros r owner studentID digest. apply composite_key_not_plain, plain_StringToMD5.
Qed.

(* ------------------------------------------------------------------ *)
(** ** The transcript in terms of the state *)
(* ------------------------------------------------------------------ *)






(* ------------------------------------------------------------------ *)
(** ** Listings without duplicates, student-ids as text *)
(* ------------------------------------------------------------------ *)








(* ------------------------------------------------------------------ *)
(** ** From an insert to the profile and to the transcript *)
(* ------------------------------------------------------------------ *)




